(** * checkupy.onnx_models: the OnnxModel prediction adapter

    A shallow embedding of [src/checkupy/onnx_models.py].  The class
    [OnnxModel] wraps an onnxruntime [InferenceSession]; its [predict]
    method normalises an ndarray, a DataFrame or a dict into one float32
    matrix, runs the session and shapes the first output tensor back into the
    caller's representation.

    numpy, pandas and onnxruntime are libraries outside the repository: the
    few operations [predict] calls are modelled below, each next to the
    Python expression it stands for. *)

From Stdlib Require Import ZArith SpecFloat.
From stdpp Require Import base option list strings gmap fin_maps.

Set Default Proof Using "Type".

(** ** Numeric scalars and dtypes *)

(** IEEE-754 values are kept as the standard library's [spec_float]
    (sign, mantissa, exponent); [float32] and [float64] are the numpy dtypes
    of the same names and [int64] is what numpy makes of a Python int
    between -2^63 and 2^63 - 1.  A Python int outside that range is no int64
    for numpy (its cast to float32 can raise) and is outside this model. *)
Record float32 := F32 { f32_value : spec_float }.
Record float64 := F64 { f64_value : spec_float }.
Record int64 := I64 { i64_value : Z }.

(** Rounding to binary32 (24 bits of precision, [emax] = 128), to nearest
    even, as the C cast numpy's [astype] applies to a float64. *)
Definition round_binary32 (x : spec_float) : spec_float :=
  match x with
  | S754_finite s m e => binary_round 24 128 s m e
  | _ => x
  end.

(** [arr.astype(np.float32)] on one element of dtype [A]. *)
Class NumpyDtype (A : Type) := astype_float32 : A → float32.

#[export] Instance float32_dtype : NumpyDtype float32 := λ x, x.
#[export] Instance float64_dtype : NumpyDtype float64 :=
  λ x, F32 (round_binary32 (f64_value x)).
#[export] Instance int64_dtype : NumpyDtype int64 :=
  λ z, F32 (binary_normalize 24 128 (i64_value z) 0 false).

(** ** numpy arrays *)

(** An ndarray is its shape and its elements in C (row-major) order;
    [ndim] is the length of the shape. *)
Record ndarray (A : Type) := Ndarray { shape : list nat; elems : list A }.
Arguments Ndarray {A} shape elems.
Arguments shape {A} _.
Arguments elems {A} _.

Definition ndim {A} (a : ndarray A) : nat := length (shape a).

(** [a.astype(np.float32)] *)
Definition astype {A} `{NumpyDtype A} (a : ndarray A) : ndarray float32 :=
  Ndarray (shape a) (astype_float32 <$> elems a).

(** [a.flatten()] *)
Definition flatten {A} (a : ndarray A) : ndarray A :=
  Ndarray [length (elems a)] (elems a).

(** [a.reshape(-1, 1)] *)
Definition reshape_column {A} (a : ndarray A) : ndarray A :=
  Ndarray [length (elems a); 1] (elems a).

(** [np.atleast_1d(a)] on an array: a 0-d array becomes 1-d. *)
Definition atleast_1d {A} (a : ndarray A) : ndarray A :=
  match shape a with
  | [] => Ndarray [1] (elems a)
  | _ => a
  end.

(** Row [i] of a 2-d array of width [w]. *)
Definition row_of {A} (w i : nat) (a : ndarray A) : list A :=
  take w (drop (i * w) (elems a)).

(** The engine's output tensor: a 2-d array, [cells] in row-major order. *)
Record matrix (A : Type) := Matrix { nrows : nat; ncols : nat; cells : list A }.
Arguments Matrix {A} nrows ncols cells.
Arguments nrows {A} _.
Arguments ncols {A} _.
Arguments cells {A} _.

Definition matrix_wf {A} (o : matrix A) : Prop :=
  length (cells o) = nrows o * ncols o.

(** Column [j] of a matrix, as a list. *)
Definition column {A} (o : matrix A) (j : nat) : list A :=
  omap (λ i, cells o !! (i * ncols o + j)) (seq 0 (nrows o)).

(** Iterating over [outputs.T] yields the columns, each a 1-d array. *)
Definition T_rows {A} (o : matrix A) : list (ndarray A) :=
  (λ j, Ndarray [nrows o] (column o j)) <$> seq 0 (ncols o).

(** ** pandas objects *)

(** Row and column labels of an index. *)
Inductive hashable := HInt (z : Z) | HStr (s : string).

(** A DataFrame: its row index and its named columns in order.  pandas
    allows two columns to share a name. *)
Record DataFrame (A : Type) :=
  MkDataFrame { index : list hashable; named_columns : list (string * list A) }.
Arguments MkDataFrame {A} index named_columns.
Arguments index {A} _.
Arguments named_columns {A} _.

Record Series (A : Type) :=
  MkSeries { series_index : list hashable; series_values : list A }.
Arguments MkSeries {A} series_index series_values.
Arguments series_index {A} _.
Arguments series_values {A} _.

(** [df.columns] *)
Definition columns {A} (df : DataFrame A) : list string :=
  fst <$> named_columns df.

(** Every column holds one value per row of the index. *)
Definition frame_wf {A} (df : DataFrame A) : Prop :=
  Forall (λ c, length c.2 = length (index df)) (named_columns df).

(** Stacking column lists into [n] rows, row-major. *)
Definition rows_of_columns {A} (n : nat) (cols : list (list A)) : list A :=
  i ← seq 0 n; omap (λ c : list A, c !! i) cols.

(** [df.values] *)
Definition values {A} (df : DataFrame A) : ndarray A :=
  Ndarray [length (index df); length (named_columns df)]
          (rows_of_columns (length (index df)) (snd <$> named_columns df)).

(** [s.values] of a Series *)
Definition Series_values {A} (s : Series A) : ndarray A :=
  Ndarray [length (series_values s)] (series_values s).

(** ** Exceptions *)

(** A message is kept as the parts of its f-string, the interpolated values
    as values: a literal has one [Lit] part. *)
Inductive fvalue := FInt (n : nat) | FStr (s : string) | FStrList (l : list string).
Inductive fpart := Lit (s : string) | Interp (v : fvalue).

(** The text of an exception: one written in this module or by Python
    itself, or the text a library chose, which is not modelled. *)
Inductive library := numpy | pandas.
Inductive message := Text (parts : list fpart) | LibraryText (lib : library).

Inductive exn :=
| ValueError (msg : message)
| TypeError (msg : message)
| KeyError (msg : message)
| IndexError
| AttributeError
| EngineInvocationError (e : string).

(** Code that may raise. *)
Definition Exc (X : Type) : Type := exn + X.

#[export] Instance Exc_ret : MRet Exc := λ X x, inr x.
#[export] Instance Exc_bind : MBind Exc := λ X Y f m,
  match m with inl e => inl e | inr x => f x end.

(** [l[0]] *)
Definition getitem0 {X} (l : list X) : Exc X :=
  match l with
  | [] => inl IndexError
  | x :: _ => inr x
  end.

(** [np.concatenate(arrs, axis=1)] on 2-d arrays: the operands must agree on
    their number of rows, and there must be at least one. *)
Definition np_concatenate_axis1 {A} (arrs : list (ndarray A)) : Exc (ndarray A) :=
  match arrs with
  | [] => inl (ValueError (LibraryText numpy))
  | a0 :: _ =>
      let n := default 0 (shape a0 !! 0) in
      if forallb (λ a, bool_decide (ndim a = 2 ∧ shape a !! 0 = Some n)) arrs
      then inr (Ndarray [n; sum_list ((λ a, default 0 (shape a !! 1)) <$> arrs)]
                        (i ← seq 0 n; a ← arrs; row_of (default 0 (shape a !! 1)) i a))
      else inl (ValueError (LibraryText numpy))
  end.

(** [df[labels]] with a list of labels: for each label in turn, every column
    of that name; [KeyError] when a label names no column. *)
Definition getitem_labels {A} (df : DataFrame A) (labels : list string)
  : Exc (DataFrame A) :=
  cols ← mapM (λ label,
                 match filter (λ c, c.1 = label) (named_columns df) with
                 | [] => inl (KeyError (LibraryText pandas))
                 | cs => inr cs
                 end) labels;
  mret (MkDataFrame (index df) (concat cols)).

(** [pd.DataFrame(data=..., index=..., columns=...)] from a 2-d array: the
    shape must be the one the index and the columns imply. *)
Definition DataFrame_new {B} (data : matrix B) (idx : list hashable)
    (cols : list string) : Exc (DataFrame B) :=
  if bool_decide (nrows data = length idx ∧ ncols data = length cols)
  then inr (MkDataFrame idx (zip cols (column data <$> seq 0 (ncols data))))
  else inl (ValueError (LibraryText pandas)).

(** ** Python values handed to [predict] *)

Section Values.
Context {A : Type}.

(** What a dict may hold under a key. *)
Inductive pyvalue :=
| VScalar (x : A)
| VList (l : list A)
| VNdarray (a : ndarray A)
| VSeries (s : Series A)
| VDataFrame (df : DataFrame A).

(** The argument [data]. *)
Inductive pyobj :=
| PyNdarray (a : ndarray A)
| PyDataFrame (df : DataFrame A)
| PyDict (d : gmap string pyvalue)
| PyScalar (x : A)
| PyStr (s : string)
| PyList (l : list A)
| PySeries (s : Series A)
| PyNone.

(** [np.asarray(v)] *)
Definition asarray (v : pyvalue) : ndarray A :=
  match v with
  | VScalar x => Ndarray [] [x]
  | VList l => Ndarray [length l] l
  | VNdarray a => a
  | VSeries s => Series_values s
  | VDataFrame df => values df
  end.

(** [d[key]] *)
Definition dict_getitem (d : gmap string pyvalue) (key : string) : Exc pyvalue :=
  match d !! key with
  | Some v => inr v
  | None => inl (KeyError (Text [Interp (FStr key)]))
  end.

(** [data.index] *)
Definition getattr_index (data : pyobj) : Exc (list hashable) :=
  match data with
  | PyDataFrame df => inr (index df)
  | PySeries s => inr (series_index s)
  | _ => inl AttributeError
  end.
End Values.
Arguments pyvalue : clear implicits.
Arguments pyobj : clear implicits.

(** ** The class OnnxModel *)

Section OnnxModel.
(** [B] is the dtype of the tensors the session returns. *)
Context {B : Type} `{!NumpyDtype B}.

(** An entry of [session.get_inputs()]. *)
Record NodeArg := MkNodeArg { name : string }.

(** onnxruntime's [InferenceSession]: the declared inputs and [run], a
    function of the requested output names and the input feed.  It returns
    the output tensors or fails with an error of its own.  The tensors are
    taken to be 2-d, as the model this class is written for returns them;
    outputs of another rank are outside this model. *)
Record InferenceSession := MkInferenceSession {
  get_inputs : list NodeArg;
  run : option (list string) → gmap string (ndarray float32)
        → string + list (matrix B)
}.

(** The attributes [__init__] sets; [model] is the graph [onnx.load]
    returned, kept opaque. *)
Record OnnxModel := MkOnnxModel {
  model_path : string;
  _input_labels : list string;
  _output_labels : list string;
  session : InferenceSession;
  model : string
}.

(** [OnnxModel.__init__]; [InferenceSession(model_path)] and
    [onnx.load(model_path)] are the libraries' and may raise. *)
Definition init (new_session : string → Exc InferenceSession)
    (onnx_load : string → Exc string)
    (model_path : string) (input_labels output_labels : list string)
  : Exc OnnxModel :=
  sess ← new_session model_path;
  graph ← onnx_load model_path;
  mret (MkOnnxModel model_path input_labels output_labels sess graph).

(** The two read-only properties. *)
Definition input_labels (self : OnnxModel) : list string := _input_labels self.
Definition output_labels (self : OnnxModel) : list string := _output_labels self.

(** What a call can observe and change: the attributes of the predictor
    object and the input feeds the engine has been run with so far. *)
Record World := MkWorld {
  self_object : OnnxModel;
  engine_calls : list (gmap string (ndarray float32))
}.

(** Code that reads or changes the world and may raise. *)
Definition M (X : Type) : Type := World → Exc X * World.

#[export] Instance M_ret : MRet M := λ X x w, (inr x, w).
#[export] Instance M_bind : MBind M := λ X Y f m w,
  match m w with
  | (inl e, w') => (inl e, w')
  | (inr x, w') => f x w'
  end.

(** [raise e] *)
Definition raise {X} (e : exn) : M X := λ w, (inl e, w).

(** Library code that raises or returns and touches nothing. *)
Definition lift {X} (r : Exc X) : M X := λ w, (r, w).

(** [self.attr] *)
Definition getattr {X} (attr : OnnxModel → X) : M X :=
  λ w, (inr (attr (self_object w)), w).

(** [sess.run(None, input_feed)]: the one place the engine is invoked. *)
Definition session_run (sess : InferenceSession)
    (input_feed : gmap string (ndarray float32)) : M (list (matrix B)) :=
  λ w, (match run sess None input_feed with
        | inl e => inl (EngineInvocationError e)
        | inr outs => inr outs
        end,
        MkWorld (self_object w) (engine_calls w ++ [input_feed])).

(** The two messages [predict] prepares (lines 42-43). *)
Definition wrong_cols (target_cols : nat) : message :=
  Text [Lit "Expected input tensor with shape (N, "; Interp (FInt target_cols); Lit ")"].
Definition col_list (labels : list string) : message :=
  Text [Lit "DataFrame must contain columns: "; Interp (FStrList labels)].

Section Predict.
(** [A] is the dtype of the caller's numbers. *)
Context {A : Type} `{!NumpyDtype A}.

(** One pass of the loop of lines 61-66: the value under a key as a flat
    float32 array. *)
Definition flat_float32 (v : pyvalue A) : ndarray float32 :=
  match v with
  | VDataFrame df => flatten (astype (values df))
  | VSeries s => flatten (astype (Series_values s))
  | _ => flatten (astype (atleast_1d (asarray v)))
  end.

(** Lines 40-71, "check the inputs": the float32 matrix [vals] and the
    tag [source]. *)
Definition check_inputs (data : pyobj A) : M (ndarray float32 * string) :=
  labels ← getattr _input_labels;
  let target_cols := length labels in
  match data with
  | PyNdarray a =>
      if bool_decide (ndim a ≠ 2) || bool_decide (shape a !! 1 ≠ Some target_cols)
      then raise (ValueError (wrong_cols target_cols))
      else mret (astype a, "ndarray")
  | PyDataFrame df =>
      if negb (forallb (λ label, bool_decide (label ∈ columns df)) labels)
      then raise (ValueError (col_list labels))
      else
        selected ← lift (getitem_labels df labels);
        mret (astype (values selected), "dataframe")
  | PyDict d =>
      if negb (forallb (λ label, bool_decide (is_Some (d !! label))) labels)
      then raise (ValueError (col_list labels))
      else
        vals ← lift (mapM (λ i, v ← dict_getitem d i; mret (flat_float32 v)) labels);
        vals ← lift (np_concatenate_axis1 (reshape_column <$> vals));
        mret (vals, "dict")
  | _ => raise (TypeError (Text [Lit "Unsupported input type"]))
  end.

(** Lines 73-75, "make the inference": the first output of one run. *)
Definition make_inference (vals : ndarray float32) : M (matrix B) :=
  sess ← getattr session;
  input0 ← lift (getitem0 (get_inputs sess));
  let inputs : gmap string (ndarray float32) := {[ name input0 := vals ]} in
  outs ← session_run sess inputs;
  lift (getitem0 outs).

(** What [predict] returns. *)
Inductive pyresult :=
| RNdarray (outputs : matrix B)
| RDict (d : gmap string (ndarray float32))
| RDataFrame (df : DataFrame B).

(** Lines 77-94, "adjust the outputs". *)
Definition adjust_outputs (data : pyobj A) (source : string)
    (outputs : matrix B) : M pyresult :=
  if String.eqb source "ndarray" then mret (RNdarray outputs)
  else if String.eqb source "dict" then
    labels ← getattr output_labels;
    mret (RDict (foldl (λ acc iv, <[iv.1 := flatten (astype iv.2)]> acc) ∅
                       (zip labels (T_rows outputs))))
  else if String.eqb source "dataframe" then
    idx ← lift (getattr_index data);
    labels ← getattr output_labels;
    df ← lift (DataFrame_new outputs idx labels);
    mret (RDataFrame df)
  else raise (TypeError (Text [Lit "Unsupported output type"])).

(** [OnnxModel.predict] *)
Definition predict (data : pyobj A) : M pyresult :=
  '(vals, source) ← check_inputs data;
  outputs ← make_inference vals;
  adjust_outputs data source outputs.

(** [OnnxModel.__call__] *)
Definition call (data : pyobj A) : M pyresult := predict data.
End Predict.
End OnnxModel.

(** ** Derived notions used in the statements *)

(** The items of the comprehension of lines 82-85, in order. *)
Definition output_items {B} `{!NumpyDtype B} (labels : list string) (o : matrix B)
  : list (string * ndarray float32) :=
  (λ iv, (iv.1, flatten (astype iv.2))) <$> zip labels (T_rows o).

(** The caller casting the numbers of an argument to another dtype before
    the call: [a.astype(t)] on an ndarray, a DataFrame or a Series, and the
    same on every value of a dict. *)
Section Cast.
Context {A A' : Type} (f : A → A').





End Cast.


(** ** The spec's vocabulary *)

(** The spec calls the [ValueError] of line 47 a ShapeError and the one of
    lines 53 and 59 a ColumnError. *)
Definition ShapeError (target_cols : nat) : exn :=
  ValueError (wrong_cols target_cols).
Definition ColumnError (labels : list string) : exn :=
  ValueError (col_list labels).

(** The three types [predict] has a branch for. *)
Definition accepted_type {A} (data : pyobj A) : bool :=
  match data with
  | PyNdarray _ | PyDataFrame _ | PyDict _ => true
  | _ => false
  end.

(** ** A small predictor to run the model on

    Two inputs ["a"] and ["b"], one output ["x"], and an engine that adds up
    each row in float32 (the scenario of the spec's section 8). *)
Module Demo.
Definition f64 (z : Z) : float64 := F64 (binary_normalize 53 1024 z 0 false).
Definition f32 (z : Z) : float32 := F32 (binary_normalize 24 128 z 0 false).

Definition f32_add (x y : float32) : float32 :=
  F32 (SFadd 24 128 (f32_value x) (f32_value y)).

Definition row_sums (a : ndarray float32) : matrix float32 :=
  let n := default 0 (shape a !! 0) in
  let k := default 0 (shape a !! 1) in
  Matrix n 1 ((λ i, foldr f32_add (F32 (S754_zero false)) (row_of k i a)) <$> seq 0 n).

Definition sum_session : InferenceSession (B := float32) :=
  MkInferenceSession [MkNodeArg "input"]
    (λ _ feed, match feed !! "input" with
               | Some a => inr [row_sums a]
               | None => inl "INVALID_ARGUMENT"
               end).

Definition adder : OnnxModel :=
  MkOnnxModel "adder.onnx" ["a"; "b"] ["x"] sum_session "".

Definition w0 : World := MkWorld adder [].

(** An engine that hands its input tensor back, whatever its width. *)
Definition echo (a : ndarray float32) : matrix float32 :=
  Matrix (default 0 (shape a !! 0)) (default 0 (shape a !! 1)) (elems a).

Definition echo_session : InferenceSession (B := float32) :=
  MkInferenceSession [MkNodeArg "input"]
    (λ _ feed, match feed !! "input" with
               | Some a => inr [echo a]
               | None => inl "INVALID_ARGUMENT"
               end).

Definition echo_model : OnnxModel :=
  MkOnnxModel "echo.onnx" ["a"; "b"] ["x"] echo_session "".
Definition w_echo : World := MkWorld echo_model [].

(** The same numbers in the three shapes: rows (1, 3) and (2, 4). *)
Definition column_a : list float64 := [f64 1; f64 2].
Definition column_b : list float64 := [f64 3; f64 4].
Definition array : ndarray float64 :=
  Ndarray [2; 2] [f64 1; f64 3; f64 2; f64 4].
Definition table : DataFrame float64 :=
  MkDataFrame [HInt 10; HInt 11] [("a", column_a); ("b", column_b)].
Definition mapping : gmap string (pyvalue float64) :=
  <["a" := VList column_a]> (<["b" := VList column_b]> ∅).
Definition vals_ab : ndarray float32 :=
  Ndarray [2; 2] [f32 1; f32 3; f32 2; f32 4].

(** The table with its columns in another order and one more column. *)
Definition table_reordered : DataFrame float64 :=
  MkDataFrame [HInt 10; HInt 11]
    [("c", [f64 7; f64 8]); ("b", column_b); ("a", column_a)].

(** Arguments the checks reject. *)
Definition table_without_b : DataFrame float64 :=
  MkDataFrame [HInt 10; HInt 11] [("a", column_a)].
Definition ragged : gmap string (pyvalue float64) :=
  <["a" := VList column_a]> (<["b" := VList [f64 3]]> ∅).

(** A predictor with one input label and two output labels on the echo
    engine, and a table with two columns of the same name, in both
    orders. *)
Definition echo_pair : OnnxModel :=
  MkOnnxModel "echo.onnx" ["a"] ["x"; "y"] echo_session "".
Definition w_pair : World := MkWorld echo_pair [].
Definition twins : DataFrame float64 :=
  MkDataFrame [HInt 0] [("a", [f64 1]); ("a", [f64 2])].
Definition twins_swapped : DataFrame float64 :=
  MkDataFrame [HInt 0] [("a", [f64 2]); ("a", [f64 1])].
End Demo.

(** ** The script under [if __name__ == "__main__"] (lines 100-174) *)

Definition main_model_path : string := "model2_100x2_vs_inbody.onnx".

Definition main_input_labels : list string :=
  [ "height"; "weight"; "age"; "sex";
    "left_arm_resistance"; "left_arm_reactance";
    "left_leg_resistance"; "left_leg_reactance";
    "left_body_resistance"; "left_body_reactance";
    "right_arm_resistance"; "right_arm_reactance";
    "right_leg_resistance"; "right_leg_reactance";
    "right_body_resistance"; "right_body_reactance" ].

Definition main_output_labels : list string :=
  [ "total_body_basalmetabolicrate"; "total_body_proteins";
    "total_body_minerals"; "target_weight"; "total_body_phaseangle";
    "total_body_phaseanglecorrected"; "total_body_fatmass";
    "total_body_fatmassperc"; "total_body_fatmassindex";
    "total_body_fatfreemass"; "total_body_fatfreemassperc";
    "total_body_fatfreemassindex"; "total_body_bonemineralcontentperc";
    "total_body_bonemineralcontent"; "total_body_softleanmass";
    "total_body_softleanmassperc"; "total_body_skeletalmusclemass";
    "total_body_skeletalmusclemassperc"; "total_body_skeletalmusclemassindex";
    "left_arm_fatmass"; "left_arm_fatmassperc"; "left_arm_fatfreemass";
    "left_arm_fatfreemassperc"; "left_leg_fatmass"; "left_leg_fatmassperc";
    "left_leg_fatfreemass"; "left_leg_fatfreemassperc"; "right_arm_fatmass";
    "right_arm_fatmassperc"; "right_arm_fatfreemass";
    "right_arm_fatfreemassperc"; "right_leg_fatmass"; "right_leg_fatmassperc";
    "right_leg_fatfreemass"; "right_leg_fatfreemassperc";
    "total_trunk_fatmass"; "total_trunk_fatmassperc";
    "total_trunk_fatfreemass"; "total_trunk_fatfreemassperc";
    "total_body_water"; "total_body_waterperc";
    "total_body_extracellularwater"; "total_body_extracellularwaterperc";
    "total_body_intracellularwater"; "total_body_intracellularwaterperc";
    "ecw_on_icw" ].

(** [{i: randint(1, 100) for i in labels}] (line 172): [draws] are the
    numbers [randint] returns, one per label and in that order.  numpy makes
    an int64 of a Python int. *)
Definition main_inputs (labels : list string) (draws : list Z)
  : gmap string (pyvalue int64) :=
  foldl (λ acc ir, <[ir.1 := VScalar (I64 ir.2)]> acc) ∅ (zip labels draws).

(** The script: build the predictor, draw the inputs, call the predictor.
    The two loaders are the libraries'; the final [print] is left out.  The
    outcome of the call comes with the world it leaves. *)
Definition main {B} `{!NumpyDtype B}
    (new_session : string → Exc (InferenceSession (B := B)))
    (onnx_load : string → Exc string) (draws : list Z)
  : Exc (Exc (pyresult (B := B)) * World (B := B)) :=
  onnx_model ← init new_session onnx_load main_model_path
                    main_input_labels main_output_labels;
  let inputs := main_inputs (input_labels onnx_model) draws in
  mret (call (PyDict inputs) (MkWorld onnx_model [])).

(** The result is of the kind the argument was: array for array, table for
    table, dict for dict. *)
Definition same_variant {A B} (data : pyobj A) (r : pyresult (B := B)) : bool :=
  match data, r with
  | PyNdarray _, RNdarray _ => true
  | PyDataFrame _, RDataFrame _ => true
  | PyDict _, RDict _ => true
  | _, _ => false
  end.

(** ** Predictors and arguments at the edges *)
Module Edge.
(** A session that declares no input, one whose run fails, and one whose
    run returns no tensor. *)
Definition no_input_session : InferenceSession (B := float32) :=
  MkInferenceSession [] (λ _ _, inr []).
Definition failing_session : InferenceSession (B := float32) :=
  MkInferenceSession [MkNodeArg "input"] (λ _ _, inl "RUNTIME_EXCEPTION").
Definition silent_session : InferenceSession (B := float32) :=
  MkInferenceSession [MkNodeArg "input"] (λ _ _, inr []).

Definition w_no_input : World :=
  MkWorld (MkOnnxModel "m.onnx" ["a"; "b"] ["x"] no_input_session "") [].
Definition w_failing : World :=
  MkWorld (MkOnnxModel "m.onnx" ["a"; "b"] ["x"] failing_session "") [].
Definition w_silent : World :=
  MkWorld (MkOnnxModel "m.onnx" ["a"; "b"] ["x"] silent_session "") [].

(** A predictor without input labels. *)
Definition w_no_labels : World :=
  MkWorld (MkOnnxModel "m.onnx" [] ["x"] Demo.sum_session "") [].

(** The echo engine under two output labels of one name. *)
Definition w_same_name : World :=
  MkWorld (MkOnnxModel "echo.onnx" ["a"; "b"] ["x"; "x"] Demo.echo_session "") [].

(** The demo's numbers held otherwise: a Series with its own index, a
    column vector, and a key no label asks for. *)
Definition mapping_other_shapes : gmap string (pyvalue float64) :=
  <["a" := VSeries (MkSeries [HInt 5; HInt 6] Demo.column_a)]>
    (<["b" := VNdarray (Ndarray [2; 1] Demo.column_b)]>
       (<["note" := VScalar (Demo.f64 0)]> ∅)).

(** A session for the script: any input in, one row of 46 zeros out. *)
Definition zeros_session : InferenceSession (B := float32) :=
  MkInferenceSession [MkNodeArg "input"]
    (λ _ _, inr [Matrix 1 46 (replicate 46 (Demo.f32 0))]).
Definition draws : list Z :=
  [3; 14; 15; 92; 65; 35; 89; 79; 32; 38; 46; 26; 43; 38; 32; 79]%Z.
Definition w_script : World :=
  MkWorld (MkOnnxModel main_model_path main_input_labels main_output_labels
                       zeros_session "") [].
End Edge.

(** ** More predictors and tables *)
Module Cases.

(** The demo table with two more columns that share a name. *)
Definition table_with_twin_extras : DataFrame float64 :=
  MkDataFrame [HInt 10; HInt 11]
    [("c", [Demo.f64 7; Demo.f64 8]); ("b", Demo.column_b);
     ("c", [Demo.f64 9; Demo.f64 9]); ("a", Demo.column_a)].
End Cases.

(** ** Properties of [predict] *)

Ltac unfold_M :=
  unfold call, predict, check_inputs, make_inference, adjust_outputs,
    raise, lift, getattr, session_run, mbind, M_bind, mret, M_ret.

Section Rejections.
Context {A B : Type} `{!NumpyDtype A, !NumpyDtype B}.
Implicit Types (w : World (B := B)) (data : pyobj A).

Lemma forallb_false_iff {X} (p : X → bool) (l : list X) :
  forallb p l = false ↔ ∃ x, x ∈ l ∧ p x = false.
Proof.
  induction l as [|y l IH]; simpl.
  - split; [done | intros (x & Hx & _); by apply elem_of_nil in Hx].
  - rewrite andb_false_iff, IH. split.
    + intros [Hy | (x & Hx & Hp)].
      * exists y. split; [left | done].
      * exists x. split; [by right | done].
    + intros (x & Hx & Hp). apply elem_of_cons in Hx as [-> | Hx]; eauto.
Qed.

(** C3.  An ndarray whose rank is not 2, or whose second dimension is not
    the number of input labels, makes [predict] raise the ShapeError and
    leaves the world as it was; every other ndarray passes the check with
    its float32 copy as [vals], and the call does not end in that error. *)
Theorem predict_ndarray_shape (a : ndarray A) w :
  let target_cols := length (_input_labels (self_object w)) in
  (ndim a ≠ 2 ∨ shape a !! 1 ≠ Some target_cols →
     predict (PyNdarray a) w = (inl (ShapeError target_cols), w)) ∧
  (ndim a = 2 ∧ shape a !! 1 = Some target_cols →
     check_inputs (PyNdarray a) w = (inr (astype a, "ndarray"), w) ∧
     (predict (PyNdarray a) w).1 ≠ inl (ShapeError target_cols)).
Proof.
  intros k. subst k. split.
  - intros Hbad. unfold_M. simpl.
    assert (bool_decide (ndim a ≠ 2)
            || bool_decide (shape a !! 1 ≠ Some (length (_input_labels (self_object w))))
            = true) as ->; [|done].
    apply orb_true_iff. destruct Hbad; [left | right]; by apply bool_decide_eq_true.
  - intros [Hdim Hk]. unfold_M. simpl.
    assert (bool_decide (ndim a ≠ 2)
            || bool_decide (shape a !! 1 ≠ Some (length (_input_labels (self_object w))))
            = false) as ->.
    { apply orb_false_iff. split; apply bool_decide_eq_false; auto. }
    split; [done|]. simpl.
    destruct (get_inputs (session (self_object w))) as [|i0 ins]; simpl; [done|].
    destruct (run _ _ _) as [e|[|o outs]]; simpl; done.
Qed.

(** C4.  A DataFrame without a column for some input label, or a dict
    without a key for one, makes [predict] raise the ColumnError, whose
    message carries the whole list of required labels; the world, and with
    it the list of engine runs, is as before. *)
Theorem predict_missing_label data w :
  let labels := _input_labels (self_object w) in
  (∃ df label, data = PyDataFrame df ∧ label ∈ labels ∧ label ∉ columns df) ∨
  (∃ d label, data = PyDict d ∧ label ∈ labels ∧ d !! label = None) →
  predict data w =
    (inl (ValueError (Text [Lit "DataFrame must contain columns: ";
                               Interp (FStrList labels)])), w).
Proof.
  intros labels [(df & label & -> & Hin & Hnot) | (d & label & -> & Hin & Hnone)].
  - unfold_M. simpl. fold labels.
    assert (forallb (λ l, bool_decide (l ∈ columns df)) labels = false) as ->; [|done].
    apply forallb_false_iff. exists label. split; [done|].
    by apply bool_decide_eq_false.
  - unfold_M. simpl. fold labels.
    assert (forallb (λ l, bool_decide (is_Some (d !! l))) labels = false) as ->; [|done].
    apply forallb_false_iff. exists label. split; [done|].
    apply bool_decide_eq_false. rewrite Hnone. by intros [? ?].
Qed.

(** C7 (as amended).  Any argument that is not an ndarray, a DataFrame or
    a dict makes [predict] raise [TypeError("Unsupported input type")],
    with a capital U, and the engine is not run. *)
Theorem predict_unsupported_type data w :
  accepted_type data = false →
  predict data w = (inl (TypeError (Text [Lit "Unsupported input type"])), w).
Proof. intros Hty. destruct data; try discriminate Hty; reflexivity. Qed.

Lemma predict_self_object data w :
  self_object (predict data w).2 = self_object w.
Proof.
  destruct w as [self calls]. unfold_M. simpl.
  repeat (case_match; simpl in *; simplify_eq; try done).
Qed.

Lemma predict_reads_self_only data w w' :
  self_object w = self_object w' → (predict data w).1 = (predict data w').1.
Proof.
  destruct w as [self calls], w' as [self' calls']. simpl. intros <-.
  unfold_M. simpl.
  repeat (case_match; simpl in *; simplify_eq; try done).
Qed.

(** C8.  A call leaves the attributes of the predictor as they were,
    whether it returns or raises, and a second call with the same argument
    ends as the first did, again with the attributes untouched. *)
Theorem predict_preserves_predictor data w :
  let w1 := (predict data w).2 in
  self_object w1 = self_object w ∧
  (predict data w1).1 = (predict data w).1 ∧
  self_object (predict data w1).2 = self_object w.
Proof.
  intros w1. subst w1. split_and!.
  - apply predict_self_object.
  - apply predict_reads_self_only, predict_self_object.
  - by rewrite !predict_self_object.
Qed.
End Rejections.

Section Stages.
Context {A B : Type} `{!NumpyDtype A, !NumpyDtype B}.
Implicit Types (w : World (B := B)) (data : pyobj A).

Lemma predict_stages data w :
  predict data w =
    match check_inputs data w with
    | (inl e, w1) => (inl e, w1)
    | (inr (vals, source), w1) =>
        match make_inference vals w1 with
        | (inl e, w2) => (inl e, w2)
        | (inr outputs, w2) => adjust_outputs data source outputs w2
        end
    end.
Proof.
  unfold predict, mbind, M_bind.
  destruct (check_inputs data w) as [[e|[vals source]] w1]; reflexivity.
Qed.

Lemma check_inputs_world data w : (check_inputs data w).2 = w.
Proof.
  unfold_M. simpl. repeat (case_match; simpl in *; simplify_eq; try done).
Qed.

Lemma make_inference_eq (vals : ndarray float32) w :
  make_inference vals w =
    match get_inputs (session (self_object w)) with
    | [] => (inl IndexError, w)
    | input0 :: _ =>
        let feed : gmap string (ndarray float32) := {[ name input0 := vals ]} in
        (match run (session (self_object w)) None feed with
         | inl e => inl (EngineInvocationError e)
         | inr [] => inl IndexError
         | inr (o :: _) => inr o
         end,
         MkWorld (self_object w) (engine_calls w ++ [feed]))
    end.
Proof.
  unfold_M. simpl.
  destruct (get_inputs (session (self_object w))) as [|input0 ins]; simpl; [done|].
  destruct (run _ _ _) as [e|[|o outs]]; reflexivity.
Qed.

(** The loop of lines 61-66 finds a value under every label. *)
Lemma mapM_dict_getitem (d : gmap string (pyvalue A)) (labels : list string) :
  Forall (λ l, is_Some (d !! l)) labels →
  mapM (λ i, v ← dict_getitem d i; mret (flat_float32 v)) labels
  = inr (omap (λ l, flat_float32 <$> d !! l) labels).
Proof.
  induction 1 as [|l labels [v Hv] _ IH]; [done|].
  cbn [mapM omap list_omap]. rewrite IH. unfold dict_getitem. by rewrite Hv.
Qed.

Lemma forallb_bool_decide {X} (P : X → Prop) `{!∀ x, Decision (P x)} (l : list X) :
  forallb (λ x, bool_decide (P x)) l = true ↔ Forall P l.
Proof.
  induction l as [|x l IH]; simpl.
  - split; [constructor | done].
  - rewrite andb_true_iff, bool_decide_eq_true, IH, Forall_cons. done.
Qed.

(** What the dict branch computes once every label is a key. *)
Lemma check_inputs_dict (d : gmap string (pyvalue A)) w :
  Forall (λ l, is_Some (d !! l)) (_input_labels (self_object w)) →
  check_inputs (PyDict d) w =
    (match np_concatenate_axis1
             (reshape_column <$>
                omap (λ l, flat_float32 <$> d !! l) (_input_labels (self_object w))) with
     | inl e => inl e
     | inr vals => inr (vals, "dict")
     end, w).
Proof.
  intros Hkeys. unfold_M. simpl.
  rewrite (proj2 (forallb_bool_decide _ _) Hkeys). simpl.
  rewrite mapM_dict_getitem by done. simpl.
  by destruct (np_concatenate_axis1 _).
Qed.

Lemma check_inputs_dict_inv (d : gmap string (pyvalue A)) w vals source w' :
  check_inputs (PyDict d) w = (inr (vals, source), w') →
  source = "dict" ∧ w' = w.
Proof.
  unfold_M. simpl.
  destruct (forallb _ _); simpl; [|done].
  destruct (mapM _ _) as [e|vs]; simpl; [done|].
  destruct (np_concatenate_axis1 _) as [e|v]; simpl; [done|].
  by intros [= <- <- <-].
Qed.
End Stages.

Section Mapping.
Context {A B : Type} `{!NumpyDtype A, !NumpyDtype B}.
Implicit Types (w : World (B := B)) (d : gmap string (pyvalue A)).

Lemma np_concatenate_ragged {X} (arrs : list (ndarray X)) a1 a2 :
  a1 ∈ arrs → a2 ∈ arrs → shape a1 !! 0 ≠ shape a2 !! 0 →
  np_concatenate_axis1 arrs = inl (ValueError (LibraryText numpy)).
Proof.
  intros H1 H2 Hne. unfold np_concatenate_axis1.
  destruct arrs as [|a0 arrs']; [done|].
  set (arrs := a0 :: arrs') in *.
  destruct (forallb _ arrs) eqn:Hall; [|done].
  apply forallb_bool_decide in Hall. rewrite Forall_forall in Hall.
  destruct (Hall _ H1) as [_ E1], (Hall _ H2) as [_ E2]. congruence.
Qed.

(** C10.  A dict with a key for every input label whose values, once cast
    and flattened, differ in length makes [predict] raise numpy's
    [ValueError] from [np.concatenate]; the engine is not run. *)
Theorem predict_dict_ragged d w :
  let labels := _input_labels (self_object w) in
  Forall (λ l, is_Some (d !! l)) labels →
  (∃ l1 l2 v1 v2,
      l1 ∈ labels ∧ l2 ∈ labels ∧ d !! l1 = Some v1 ∧ d !! l2 = Some v2 ∧
      length (elems (flat_float32 v1)) ≠ length (elems (flat_float32 v2))) →
  predict (PyDict d) w = (inl (ValueError (LibraryText numpy)), w).
Proof.
  intros labels Hkeys (l1 & l2 & v1 & v2 & Hl1 & Hl2 & Hv1 & Hv2 & Hlen).
  rewrite predict_stages, check_inputs_dict by done. fold labels.
  rewrite (np_concatenate_ragged _ (reshape_column (flat_float32 v1))
                                   (reshape_column (flat_float32 v2))); [done|..].
  - apply list_elem_of_fmap_2, list_elem_of_omap. exists l1. by rewrite Hv1.
  - apply list_elem_of_fmap_2, list_elem_of_omap. exists l2. by rewrite Hv2.
  - simpl. congruence.
Qed.

(** A dict comprehension inserts its items from left to right: a later
    item wins over an earlier one with the same key. *)
Lemma comprehension_list_to_map {V V'} (f : V → V') (l : list (string * V))
    (m : gmap string V') :
  foldl (λ acc iv, <[iv.1 := f iv.2]> acc) m l
  = list_to_map (reverse ((λ iv, (iv.1, f iv.2)) <$> l)) ∪ m.
Proof.
  revert m. induction l as [|[k v] l IH]; intros m; simpl.
  - by rewrite (left_id_L ∅ (∪)).
  - rewrite IH, reverse_cons, list_to_map_app. simpl.
    rewrite <-(assoc_L (∪)). f_equal.
    by rewrite <-insert_union_l, (left_id_L ∅ (∪)).
Qed.

Lemma fst_zip_take {X Y} (l : list X) (k : list Y) :
  (zip l k).*1 = take (length k) l.
Proof.
  revert k. induction l as [|x l IH]; intros [|y k]; simpl; try done.
  by rewrite IH.
Qed.

Lemma length_T_rows (o : matrix B) : length (T_rows o) = ncols o.
Proof. unfold T_rows. by rewrite length_fmap, length_seq. Qed.

Lemma lookup_T_rows (o : matrix B) j :
  j < ncols o → T_rows o !! j = Some (Ndarray [nrows o] (column o j)).
Proof.
  intros Hj. unfold T_rows. rewrite list_lookup_fmap, lookup_seq_lt by done.
  reflexivity.
Qed.

Lemma lookup_output_items labels o j key v :
  output_items labels o !! j = Some (key, v) ↔
  j < ncols o ∧ labels !! j = Some key ∧
  v = Ndarray [length (column o j)] (astype_float32 <$> column o j).
Proof.
  unfold output_items. rewrite list_lookup_fmap. split.
  - intros Hj. apply fmap_Some in Hj as ([k a] & Hz & [= -> ->]).
    apply lookup_zip_with_Some in Hz as (k' & a' & [= <- <-] & Hk & Ha).
    assert (j < ncols o) as Hlt.
    { apply lookup_lt_Some in Ha. by rewrite length_T_rows in Ha. }
    rewrite lookup_T_rows in Ha by done. injection Ha as <-.
    split_and!; [done..|]. unfold flatten, astype. simpl.
    by rewrite length_fmap.
  - intros (Hlt & Hk & ->).
    assert (zip labels (T_rows o) !! j
            = Some (key, Ndarray [nrows o] (column o j))) as ->.
    { apply lookup_zip_with_Some. eexists _, _. split_and!; [done..|].
      by apply lookup_T_rows. }
    simpl. unfold flatten, astype. simpl. by rewrite length_fmap.
Qed.

Lemma adjust_outputs_dict (data : pyobj A) (o : matrix B) w :
  adjust_outputs data "dict" o w =
    (inr (RDict (list_to_map (reverse (output_items (_output_labels (self_object w)) o)))),
     w).
Proof.
  pose proof (comprehension_list_to_map (λ v : ndarray B, flatten (astype v))
                (zip (_output_labels (self_object w)) (T_rows o)) ∅) as E.
  rewrite (right_id_L ∅ (∪)) in E.
  unfold_M. simpl. do 3 f_equal. exact E.
Qed.

Lemma world_not_extended w feed :
  w ≠ MkWorld (self_object w) (engine_calls w ++ [feed]).
Proof.
  destruct w as [self calls]. simpl. intros [= Hcalls].
  apply (f_equal length) in Hcalls. rewrite length_app in Hcalls. simpl in Hcalls. lia.
Qed.

(** C9.  When a call with a dict has run the engine and the first output
    tensor has [ncols o] columns, whatever that number is, the call returns
    a dict: its keys are the first [min (ncols o) (len output_labels)]
    output labels, every value is one column of the output, cast to float32
    and flat, and with distinct labels the j-th label holds column j. *)
Theorem predict_dict_any_width d w feed o outs :
  let self := self_object w in
  let labels := _output_labels self in
  (predict (PyDict d) w).2 = MkWorld self (engine_calls w ++ [feed]) →
  run (session self) None feed = inr (o :: outs) →
  ∃ r,
    (predict (PyDict d) w).1 = inr (RDict r) ∧
    dom r = list_to_set (take (ncols o `min` length labels) labels) ∧
    (∀ key v, r !! key = Some v →
       ∃ j, j < ncols o ∧ labels !! j = Some key ∧
            v = Ndarray [length (column o j)] (astype_float32 <$> column o j)) ∧
    (NoDup labels → ∀ j key, j < ncols o → labels !! j = Some key →
       r !! key = Some (Ndarray [length (column o j)] (astype_float32 <$> column o j))).
Proof.
  intros self labels Hworld Hrun.
  rewrite predict_stages in Hworld |- *.
  pose proof (check_inputs_world (PyDict d) w) as Hw1.
  destruct (check_inputs (PyDict d) w) as [[e|[vals source]] w1] eqn:Hcheck;
    simpl in Hw1; subst w1.
  { simpl in Hworld. by apply world_not_extended in Hworld. }
  apply check_inputs_dict_inv in Hcheck as [-> _].
  rewrite make_inference_eq in Hworld |- *. fold self in Hworld |- *.
  destruct (get_inputs (session self)) as [|input0 ins].
  { simpl in Hworld. by apply world_not_extended in Hworld. }
  cbv zeta in Hworld |- *.
  assert (feed = {[ name input0 := vals ]}) as ->.
  { destruct (run (session self) None {[name input0 := vals]}) as [e|[|o' outs']];
      rewrite ?adjust_outputs_dict in Hworld; simpl in Hworld;
      injection Hworld as Hcalls; by apply app_inj_tail in Hcalls as [_ ->]. }
  rewrite Hrun, adjust_outputs_dict. simpl. fold self labels.
  eexists. split; [reflexivity|].
  assert (∀ key v, (key, v) ∈ reverse (output_items labels o) ↔
            ∃ j, j < ncols o ∧ labels !! j = Some key ∧
                 v = Ndarray [length (column o j)] (astype_float32 <$> column o j))
    as Hitems.
  { intros key v. rewrite elem_of_reverse, list_elem_of_lookup.
    split; intros [j Hj]; exists j; by apply lookup_output_items. }
  assert ((reverse (output_items labels o)).*1 ≡ₚ take (ncols o `min` length labels) labels)
    as Hkeys.
  { rewrite fmap_reverse, reverse_Permutation. unfold output_items.
    rewrite <-list_fmap_compose.
    rewrite (list_fmap_ext _ fst (zip labels (T_rows o))) by done.
    rewrite fst_zip_take, length_T_rows.
    destruct (Nat.min_spec (ncols o) (length labels)) as [[_ ->]|[Hle ->]]; [done|].
    by rewrite !take_ge by lia. }
  split_and!.
  - rewrite dom_list_to_map_L. apply set_eq. intros key.
    rewrite !elem_of_list_to_set. by rewrite Hkeys.
  - intros key v Hv. apply Hitems. by apply elem_of_list_to_map_2.
  - intros Hnodup j key Hj Hkey. apply elem_of_list_to_map_1.
    + rewrite Hkeys. eapply sublist_NoDup; [done|apply sublist_take].
    + apply Hitems. eauto.
Qed.
End Mapping.

Section Table.
Context {A B : Type} `{!NumpyDtype A, !NumpyDtype B}.
Implicit Types (w : World (B := B)) (df : DataFrame A).

(** [df[labels]] once every label names a column. *)
Lemma getitem_labels_present df (labels : list string) :
  Forall (λ l, l ∈ columns df) labels →
  getitem_labels df labels
  = inr (MkDataFrame (index df)
           (concat ((λ l, filter (λ c, c.1 = l) (named_columns df)) <$> labels))).
Proof.
  intros Hall. unfold getitem_labels.
  match goal with
  | |- mbind _ (mapM ?f _) = _ =>
      assert (mapM f labels
              = inr ((λ l, filter (λ c : string * list A, c.1 = l) (named_columns df))
                       <$> labels)) as ->; [|done]
  end.
  induction Hall as [|l labels Hl _ IH]; [done|].
  cbn [mapM fmap list_fmap]. rewrite IH.
  apply list_elem_of_fmap in Hl as ([k c] & -> & Hc).
  destruct (filter _ (named_columns df)) as [|c0 cs] eqn:Hf; [|done].
  assert ((k, c) ∈ ([] : list (string * list A))) as Hin
    by (rewrite <-Hf; by apply list_elem_of_filter).
  by apply elem_of_nil in Hin.
Qed.

Lemma check_inputs_frame df w :
  Forall (λ l, l ∈ columns df) (_input_labels (self_object w)) →
  check_inputs (PyDataFrame df) w =
    (inr (astype (values (MkDataFrame (index df)
            (concat ((λ l, filter (λ c, c.1 = l) (named_columns df))
                       <$> _input_labels (self_object w))))),
          "dataframe"), w).
Proof.
  intros Hall. unfold_M. simpl.
  rewrite (proj2 (forallb_bool_decide _ _) Hall). simpl.
  by rewrite getitem_labels_present.
Qed.

Lemma adjust_outputs_frame df (o : matrix B) w :
  adjust_outputs (PyDataFrame df) "dataframe" o w =
    (match DataFrame_new o (index df) (_output_labels (self_object w)) with
     | inl e => inl e
     | inr r => inr (RDataFrame r)
     end, w).
Proof. unfold_M. simpl. unfold output_labels. by destruct (DataFrame_new _ _ _). Qed.

Lemma length_omap_total {X Y} (f : X → option Y) (l : list X) :
  Forall (λ x, is_Some (f x)) l → length (omap f l) = length l.
Proof.
  induction 1 as [|x l [y Hy] _ IH]; [done|].
  cbn [omap list_omap]. rewrite Hy. simpl. by rewrite IH.
Qed.

Lemma length_column (o : matrix B) j :
  matrix_wf o → j < ncols o → length (column o j) = nrows o.
Proof.
  intros Hwf Hj. unfold column.
  rewrite length_omap_total; [by rewrite length_seq|].
  apply Forall_forall. intros i Hi. apply elem_of_seq in Hi.
  apply lookup_lt_is_Some. rewrite Hwf. nia.
Qed.

(** C2.  A DataFrame that has a column for every input label passes the
    check, and when the session declares an input and the run on the tensor
    the check built returns first a well-formed tensor of N rows and
    len(output_labels) columns, [predict] returns a DataFrame whose columns
    are [output_labels] in order, whose index is the argument's index, and
    whose columns each hold N values. *)
Theorem predict_frame_shape df w input0 ins :
  let self := self_object w in
  Forall (λ l, l ∈ columns df) (_input_labels self) →
  get_inputs (session self) = input0 :: ins →
  ∃ vals,
    check_inputs (PyDataFrame df) w = (inr (vals, "dataframe"), w) ∧
    ∀ o outs,
      run (session self) None {[ name input0 := vals ]} = inr (o :: outs) →
      nrows o = length (index df) →
      ncols o = length (_output_labels self) →
      matrix_wf o →
      ∃ r,
        predict (PyDataFrame df) w
        = (inr (RDataFrame r),
           MkWorld self (engine_calls w ++ [ {[ name input0 := vals ]} ])) ∧
        columns r = _output_labels self ∧
        index r = index df ∧
        length (index r) = length (index df) ∧
        frame_wf r.
Proof.
  intros self Hall Hin. subst self.
  eexists. split; [by apply check_inputs_frame|].
  intros o outs Hrun Hrows Hcols Hwf.
  rewrite predict_stages, check_inputs_frame, make_inference_eq by done.
  rewrite Hin. cbv zeta. rewrite Hrun, adjust_outputs_frame. simpl.
  unfold DataFrame_new. rewrite bool_decide_eq_true_2 by done.
  eexists. split; [reflexivity|]. unfold columns, frame_wf. simpl.
  split_and!; try done.
  - apply fst_zip. by rewrite length_fmap, length_seq, Hcols.
  - apply Forall_forall. intros [k c] Hc. simpl.
    apply elem_of_zip_r, list_elem_of_fmap in Hc as (j & -> & Hj).
    apply elem_of_seq in Hj. rewrite length_column by (done || lia). done.
Qed.

Lemma filter_absent_name (cols : list (string * list A)) l :
  l ∉ cols.*1 → filter (λ kc, kc.1 = l) cols = [].
Proof.
  induction cols as [|[k c] cols IH]; [done|]. simpl. intros Hl.
  apply not_elem_of_cons in Hl as [Hne Hl].
  rewrite filter_cons_False by (simpl; congruence). by apply IH.
Qed.

Lemma submseteq_NoDup {X} (l k : list X) : l ⊆+ k → NoDup k → NoDup l.
Proof.
  intros (k' & Hk)%submseteq_Permutation Hnd. rewrite Hk in Hnd.
  by apply NoDup_app in Hnd as [? _].
Qed.

(** With distinct column names, selecting by name finds one column. *)
Lemma filter_unique_name (cols : list (string * list A)) l c :
  NoDup cols.*1 → (l, c) ∈ cols → filter (λ kc, kc.1 = l) cols = [(l, c)].
Proof.
  induction cols as [|[k c'] cols IH]; intros Hnd Hin.
  { by apply elem_of_nil in Hin. }
  simpl in Hnd. apply NoDup_cons in Hnd as [Hk Hnd].
  apply elem_of_cons in Hin as [[= <- <-]|Hin].
  - rewrite filter_cons_True by done. f_equal. by apply filter_absent_name.
  - rewrite filter_cons_False; [by apply IH|].
    simpl. intros ->. apply Hk, list_elem_of_fmap. by exists (l, c).
Qed.

Lemma filter_at_most_one (cols : list (string * list A)) l c :
  length (filter (λ kc, kc.1 = l) cols) ≤ 1 → (l, c) ∈ cols →
  filter (λ kc, kc.1 = l) cols = [(l, c)].
Proof.
  intros Hlen Hin.
  assert ((l, c) ∈ filter (λ kc : string * list A, kc.1 = l) cols) as Hf
    by by apply list_elem_of_filter.
  destruct (filter _ cols) as [|x [|y rest]]; simpl in Hlen.
  - by apply elem_of_nil in Hf.
  - apply list_elem_of_singleton in Hf. by subst.
  - lia.
Qed.

Lemma length_filter_submseteq (cols1 cols2 : list (string * list A)) l :
  cols1 ⊆+ cols2 →
  length (filter (λ kc, kc.1 = l) cols1) ≤ length (filter (λ kc, kc.1 = l) cols2).
Proof.
  intros (k & Hk)%submseteq_Permutation.
  assert (filter (λ kc : string * list A, kc.1 = l) cols2
          ≡ₚ filter (λ kc : string * list A, kc.1 = l) (cols1 ++ k)) as Hp
    by by rewrite Hk.
  apply Permutation_length in Hp. rewrite filter_app, length_app in Hp. lia.
Qed.

Lemma columns_of_labels df (labels : list string) :
  Forall (λ l, l ∈ columns df) labels →
  ∃ cols, Forall2 (λ l c, (l, c) ∈ named_columns df) labels cols.
Proof.
  induction 1 as [|l labels Hl _ [cols IH]]; [by exists []|].
  apply list_elem_of_fmap in Hl as ([k c] & -> & Hc).
  exists (c :: cols). by constructor.
Qed.

(** C6 (as amended).  Take a DataFrame that has a column for every input
    label, and a second one with the same index whose columns are those of
    the first in any order, possibly with more, in which no input label
    names more than one column: [predict] ends the same way on both, and the
    tensor of the check has, for each input label in the order of
    [input_labels], the column of that name, cast to float32, and nothing of
    the other columns. *)
Theorem predict_frame_column_order df1 df2 w :
  let labels := _input_labels (self_object w) in
  Forall (λ l, l ∈ columns df1) labels →
  index df2 = index df1 →
  named_columns df1 ⊆+ named_columns df2 →
  Forall (λ l, length (filter (λ kc, kc.1 = l) (named_columns df2)) ≤ 1) labels →
  predict (PyDataFrame df2) w = predict (PyDataFrame df1) w ∧
  ∃ cols,
    Forall2 (λ l c, (l, c) ∈ named_columns df1) labels cols ∧
    check_inputs (PyDataFrame df2) w
    = (inr (Ndarray [length (index df2); length labels]
                    (astype_float32 <$> rows_of_columns (length (index df2)) cols),
            "dataframe"), w).
Proof.
  intros labels Hall Hidx Hsub Hone.
  destruct (columns_of_labels df1 labels Hall) as [cols Hcols].
  assert (Forall (λ l, l ∈ columns df2) labels) as Hall2.
  { eapply Forall_impl; [exact Hall|]. intros l Hl. simpl in Hl.
    eapply elem_of_submseteq; [exact Hl|]. unfold columns. by rewrite Hsub. }
  assert (concat ((λ l, filter (λ c : string * list A, c.1 = l) (named_columns df2))
                    <$> labels) = zip labels cols) as Hpick2.
  { clear Hall Hall2. induction Hcols as [|l c ls cs Hin _ IH]; [done|].
    apply Forall_cons in Hone as [Hl Hone].
    cbn [fmap list_fmap concat zip zip_with]. rewrite IH by done.
    rewrite (filter_at_most_one _ l c); [done..|]. by eapply elem_of_submseteq. }
  assert (concat ((λ l, filter (λ c : string * list A, c.1 = l) (named_columns df1))
                    <$> labels) = zip labels cols) as Hpick1.
  { clear Hall Hall2 Hpick2. induction Hcols as [|l c ls cs Hin _ IH]; [done|].
    apply Forall_cons in Hone as [Hl Hone].
    cbn [fmap list_fmap concat zip zip_with]. rewrite IH by done.
    rewrite (filter_at_most_one _ l c); [done| |done].
    etrans; [by apply length_filter_submseteq|done]. }
  assert (check_inputs (PyDataFrame df2) w
          = (inr (Ndarray [length (index df2); length labels]
                    (astype_float32 <$> rows_of_columns (length (index df2)) cols),
                  "dataframe"), w)) as Hcheck2.
  { rewrite check_inputs_frame by done. fold labels. rewrite Hpick2.
    unfold values, astype. simpl.
    pose proof (Forall2_length _ _ _ Hcols) as Hk.
    rewrite length_zip, <-Hk, Nat.min_id, snd_zip by lia. done. }
  split; [|by exists cols].
  rewrite !predict_stages, Hcheck2, check_inputs_frame by done. fold labels.
  rewrite Hpick1. unfold values at 1, astype at 1. simpl.
  pose proof (Forall2_length _ _ _ Hcols) as Hk.
  rewrite length_zip, <-Hk, Nat.min_id, snd_zip, Hidx by lia.
  destruct (make_inference _ w) as [[e|o] w2]; [done|].
  by rewrite !adjust_outputs_frame, Hidx.
Qed.
End Table.

Section Equivalence.
Context {A B : Type} `{!NumpyDtype A, !NumpyDtype B}.
Implicit Types (w : World (B := B)).

Lemma flat_float32_eq (v : pyvalue A) :
  flat_float32 v
  = Ndarray [length (elems (asarray v))] (astype_float32 <$> elems (asarray v)).
Proof.
  destruct v as [x|l|a|s|df]; unfold flat_float32, flatten, astype, atleast_1d;
    simpl; rewrite ?length_fmap; try done.
  destruct (shape a); simpl; by rewrite ?length_fmap.
Qed.

Lemma take_1_drop {X} (l : list X) i : take 1 (drop i l) = option_list (l !! i).
Proof.
  revert i. induction l as [|x l IH]; intros [|i]; simpl; done.
Qed.

Lemma bind_option_list {X Y} (f : X → option Y) (l : list X) :
  (x ← l; option_list (f x)) = omap f l.
Proof.
  induction l as [|x l IH]; [done|].
  cbn [mbind list_bind omap list_omap]. rewrite IH. by destruct (f x).
Qed.


Lemma sum_list_ones {X} (g : X → nat) (l : list X) :
  (∀ x, g x = 1) → sum_list (g <$> l) = length l.
Proof.
  intros Hg. induction l as [|x l IH]; [done|].
  cbn [fmap list_fmap sum_list sum_list_with length]. rewrite Hg.
  simpl. f_equal. exact IH.
Qed.

(** [np.concatenate] of flat arrays of one length, each reshaped to a
    column, is the row-major stack of the columns. *)
Lemma np_concatenate_columns {X} n (cols : list (list X)) :
  cols ≠ [] → Forall (λ c, length c = n) cols →
  np_concatenate_axis1 ((λ c, reshape_column (Ndarray [length c] c)) <$> cols)
  = inr (Ndarray [n; length cols] (rows_of_columns n cols)).
Proof.
  intros Hne Hlen. unfold np_concatenate_axis1.
  destruct cols as [|c0 cols']; [done|].
  assert (Forall (λ a : ndarray X, ndim a = 2 ∧ shape a !! 0 = Some n)
            ((λ c, reshape_column (Ndarray [length c] c)) <$> c0 :: cols')) as Hshape.
  { apply Forall_fmap. eapply Forall_impl; [exact Hlen|].
    intros c Hc. simpl in *. by rewrite Hc. }
  apply Forall_cons in Hlen as [Hc0 _].
  cbn [fmap list_fmap] in *. simpl (default 0 _). rewrite Hc0.
  rewrite (proj2 (forallb_bool_decide _ _) Hshape).
  f_equal. f_equal.
  - f_equal. simpl. f_equal. rewrite <-list_fmap_compose.
    f_equal. by apply sum_list_ones.
  - unfold rows_of_columns. apply list_bind_ext; [|done]. intros i.
    rewrite <-bind_option_list.
    change (reshape_column (Ndarray [n] c0)
              :: ((λ c, reshape_column (Ndarray [length c] c)) <$> cols'))
      with ((λ c, reshape_column (Ndarray [length c] c)) <$> c0 :: cols').
    rewrite list_fmap_bind.
    apply list_bind_ext; [|done]. intros c. simpl.
    unfold row_of. simpl. by rewrite Nat.mul_1_r, take_1_drop.
Qed.
End Equivalence.

Section Dtype.
Context {A B : Type} `{!NumpyDtype A, !NumpyDtype B}.
Implicit Types (w : World (B := B)).







End Dtype.

(** ** The model at work on the demo predictor *)

(** The scenario of the spec's section 8: the dict gives x = [4.0, 6.0]. *)
Example predict_mapping_scenario :
  (predict (PyDict Demo.mapping) Demo.w0).1
  = inr (RDict {[ "x" := Ndarray [2] [Demo.f32 4; Demo.f32 6] ]}).
Proof. vm_compute. reflexivity. Qed.

Example predict_array_scenario :
  (predict (PyNdarray Demo.array) Demo.w0).1
  = inr (RNdarray (Matrix 2 1 [Demo.f32 4; Demo.f32 6])).
Proof. vm_compute. reflexivity. Qed.

Example predict_table_scenario :
  (predict (PyDataFrame Demo.table) Demo.w0).1
  = inr (RDataFrame (MkDataFrame [HInt 10; HInt 11] [("x", [Demo.f32 4; Demo.f32 6])])).
Proof. vm_compute. reflexivity. Qed.

(** The cast to float32 loses bits: 2^24 + 1 becomes 2^24. *)
Example astype_float32_rounds :
  astype_float32 (Demo.f64 16777217) = Demo.f32 16777216
  ∧ Demo.f64 16777217 ≠ Demo.f64 16777216.
Proof. split; [vm_compute; reflexivity | vm_compute; discriminate]. Qed.

(** ** The theorems at concrete arguments *)

Lemma predict_frame_shape_witness :
  ∃ r, predict (PyDataFrame Demo.table) Demo.w0
       = (inr (RDataFrame r), MkWorld Demo.adder [ {[ "input" := Demo.vals_ab ]} ])
       ∧ columns r = ["x"]
       ∧ index r = [HInt 10; HInt 11]
       ∧ length (index r) = 2
       ∧ frame_wf r.
Proof.
  destruct (predict_frame_shape Demo.table Demo.w0 (MkNodeArg "input") [])
    as (vals & Hcheck & Hrun).
  - repeat constructor.
  - reflexivity.
  - assert (vals = Demo.vals_ab) as ->.
    { vm_compute in Hcheck. injection Hcheck as Hvals. symmetry. exact Hvals. }
    apply (Hrun (Demo.row_sums Demo.vals_ab) []).
    + vm_compute. reflexivity.
    + reflexivity.
    + reflexivity.
    + reflexivity.
Defined.

Lemma predict_ndarray_shape_witness :
  predict (PyNdarray (Ndarray [0; 3] ([] : list float64))) Demo.w0
    = (inl (ShapeError 2), Demo.w0)
  ∧ predict (PyNdarray (Ndarray [2] Demo.column_a)) Demo.w0
    = (inl (ShapeError 2), Demo.w0)
  ∧ check_inputs (PyNdarray Demo.array) Demo.w0
    = (inr (astype Demo.array, "ndarray"), Demo.w0).
Proof.
  split_and!.
  - apply (predict_ndarray_shape (Ndarray [0; 3] ([] : list float64)) Demo.w0).
    right. discriminate.
  - apply (predict_ndarray_shape (Ndarray [2] Demo.column_a) Demo.w0).
    left. discriminate.
  - apply (predict_ndarray_shape Demo.array Demo.w0). split; reflexivity.
Defined.

Lemma predict_missing_label_witness :
  predict (PyDataFrame Demo.table_without_b) Demo.w0
    = (inl (ColumnError ["a"; "b"]), Demo.w0)
  ∧ predict (PyDict (delete "b" Demo.mapping)) Demo.w0
    = (inl (ColumnError ["a"; "b"]), Demo.w0).
Proof.
  split.
  - apply (predict_missing_label (PyDataFrame Demo.table_without_b) Demo.w0).
    left. exists Demo.table_without_b, "b". split_and!.
    + reflexivity.
    + repeat constructor.
    + apply (bool_decide_unpack _). vm_compute. exact I.
  - apply (predict_missing_label (PyDict (delete "b" Demo.mapping)) Demo.w0).
    right. exists (delete "b" Demo.mapping), "b". split_and!.
    + reflexivity.
    + repeat constructor.
    + apply lookup_delete_eq.
Defined.

Lemma predict_frame_column_order_witness :
  predict (PyDataFrame Cases.table_with_twin_extras) Demo.w0
    = predict (PyDataFrame Demo.table) Demo.w0
  ∧ check_inputs (PyDataFrame Cases.table_with_twin_extras) Demo.w0
    = (inr (Demo.vals_ab, "dataframe"), Demo.w0).
Proof.
  destruct (predict_frame_column_order Demo.table Cases.table_with_twin_extras Demo.w0)
    as (Hsame & cols & Hcols & Hcheck).
  - repeat constructor.
  - reflexivity.
  - apply submseteq_cons. apply submseteq_cons_r. right.
    exists [("a", Demo.column_a)]. split.
    + apply Permutation_swap.
    + apply submseteq_cons. reflexivity.
  - repeat constructor.
  - split; [exact Hsame|]. vm_compute. reflexivity.
Defined.

Lemma predict_unsupported_type_witness :
  predict (PyStr "abc" : pyobj float64) Demo.w0
  = (inl (TypeError (Text [Lit "Unsupported input type"])), Demo.w0).
Proof. apply (predict_unsupported_type (PyStr "abc") Demo.w0). reflexivity. Defined.

Lemma predict_dict_any_width_witness :
  ∃ r, (predict (PyDict Demo.mapping) Demo.w_echo).1 = inr (RDict r)
       ∧ dom r = {[ "x" ]}.
Proof.
  destruct (predict_dict_any_width Demo.mapping Demo.w_echo
              {[ "input" := Demo.vals_ab ]} (Demo.echo Demo.vals_ab) [])
    as (r & Hr & Hdom & _).
  - vm_compute. reflexivity.
  - vm_compute. reflexivity.
  - exists r. split; [exact Hr|]. rewrite Hdom. simpl. set_solver.
Defined.

Lemma predict_dict_ragged_witness :
  predict (PyDict Demo.ragged) Demo.w0 = (inl (ValueError (LibraryText numpy)), Demo.w0).
Proof.
  apply (predict_dict_ragged Demo.ragged Demo.w0).
  - repeat constructor; eexists; vm_compute; reflexivity.
  - exists "a", "b", (VList Demo.column_a), (VList [Demo.f64 3]). split_and!.
    + repeat constructor.
    + repeat constructor.
    + vm_compute. reflexivity.
    + vm_compute. reflexivity.
    + simpl. discriminate.
Defined.

(** ** Where the spec and the code part *)

(** C7 as written asks for the message "unsupported input type"; the code's
    message starts with a capital letter. *)
Lemma predict_unsupported_type_lowercase_fails :
  predict (PyStr "abc" : pyobj float64) Demo.w0
  ≠ (inl (TypeError (Text [Lit "unsupported input type"])), Demo.w0).
Proof. intros H. apply (f_equal fst) in H. vm_compute in H. discriminate H. Qed.

(** C6 as written covers a DataFrame with two columns of one name: both are
    selected, in the table's order, so swapping them changes the tensor and
    here the result. *)
Lemma predict_frame_duplicate_names_order :
  Forall (λ l, l ∈ columns Demo.twins) (_input_labels (self_object Demo.w_pair))
  ∧ index Demo.twins_swapped = index Demo.twins
  ∧ named_columns Demo.twins_swapped ≡ₚ named_columns Demo.twins
  ∧ (predict (PyDataFrame Demo.twins_swapped) Demo.w_pair).1
    ≠ (predict (PyDataFrame Demo.twins) Demo.w_pair).1.
Proof.
  split_and!.
  - repeat constructor.
  - reflexivity.
  - apply Permutation_swap.
  - intros H. vm_compute in H. discriminate H.
Qed.

(** ** Further properties: the inference step and the output shaping *)

Section Inference.
Context {A B : Type} `{!NumpyDtype A, !NumpyDtype B}.
Implicit Types (w : World (B := B)) (data : pyobj A).

(** A check that passes has recognised the argument and left the world. *)
Lemma check_inputs_inv data w vals source w' :
  check_inputs data w = (inr (vals, source), w') →
  w' = w ∧
  ((∃ a, data = PyNdarray a ∧ source = "ndarray")
   ∨ (∃ df, data = PyDataFrame df ∧ source = "dataframe")
   ∨ (∃ d, data = PyDict d ∧ source = "dict")).
Proof.
  intros Hcheck. pose proof (check_inputs_world data w) as Hw.
  rewrite Hcheck in Hw. simpl in Hw. split; [done|]. clear Hw. revert Hcheck.
  destruct data as [a|df|d|x|s|l|s|]; try (unfold_M; simpl; discriminate).
  - unfold_M. simpl. destruct (_ || _); simpl; [done|].
    intros [= <- <- <-]. left. by eexists.
  - unfold_M. simpl. destruct (forallb _ _); simpl; [|done].
    destruct (getitem_labels _ _); simpl; [done|].
    intros [= <- <- <-]. right; left. by eexists.
  - intros [-> _]%check_inputs_dict_inv. right; right. by eexists.
Qed.

Lemma adjust_outputs_world data source (o : matrix B) w :
  (adjust_outputs data source o w).2 = w.
Proof.
  unfold_M. simpl. repeat (case_match; simpl in *; simplify_eq; try done).
Qed.

(** X1.  Once the check has passed, an error of the engine's run comes out
    of [predict] as it is, and the run is on record. *)
Theorem predict_engine_error data w vals source w' input0 ins e :
  let self := self_object w in
  let feed : gmap string (ndarray float32) := {[ name input0 := vals ]} in
  check_inputs data w = (inr (vals, source), w') →
  get_inputs (session self) = input0 :: ins →
  run (session self) None feed = inl e →
  predict data w
  = (inl (EngineInvocationError e), MkWorld self (engine_calls w ++ [feed])).
Proof.
  intros self feed Hcheck Hin Hrun.
  destruct (check_inputs_inv _ _ _ _ _ Hcheck) as [-> _].
  rewrite predict_stages, Hcheck, make_inference_eq. fold self.
  rewrite Hin. cbv zeta. fold feed. by rewrite Hrun.
Qed.

(** X2.  A call runs the engine at most once.  It either raises with the
    list of runs as it was, or has made exactly one run, fed with one tensor
    under the name of the session's first declared input; a call that
    returns is of the second kind. *)
Theorem predict_runs_engine_once data w :
  let self := self_object w in
  ((predict data w).2 = w ∧ ∃ e, (predict data w).1 = inl e)
  ∨ (∃ vals source input0 ins,
       check_inputs data w = (inr (vals, source), w) ∧
       get_inputs (session self) = input0 :: ins ∧
       (predict data w).2
       = MkWorld self (engine_calls w ++ [{[ name input0 := vals ]}])).
Proof.
  intros self. rewrite predict_stages.
  pose proof (check_inputs_world data w) as Hw1.
  destruct (check_inputs data w) as [[e|[vals source]] w1]; simpl in Hw1; subst w1.
  { left. eauto. }
  rewrite make_inference_eq. fold self.
  destruct (get_inputs (session self)) as [|input0 ins] eqn:Hin.
  { left. eauto. }
  right. exists vals, source, input0, ins. split_and!; [done..|]. cbv zeta.
  destruct (run (session self) None {[name input0 := vals]}) as [e|[|o outs]];
    [done..|].
  apply adjust_outputs_world.
Qed.

(** X3.  For an ndarray that passes the check, [predict] returns the first
    tensor of the run as it is, whatever its shape and whatever the labels
    and the other tensors of the run are. *)
Theorem predict_ndarray_returns_first_output (a : ndarray A) w input0 ins o outs :
  let self := self_object w in
  let feed : gmap string (ndarray float32) := {[ name input0 := astype a ]} in
  ndim a = 2 →
  shape a !! 1 = Some (length (_input_labels self)) →
  get_inputs (session self) = input0 :: ins →
  run (session self) None feed = inr (o :: outs) →
  predict (PyNdarray a) w
  = (inr (RNdarray o), MkWorld self (engine_calls w ++ [feed])).
Proof.
  intros self feed Hdim Hk Hin Hrun.
  assert (check_inputs (PyNdarray a) w = (inr (astype a, "ndarray"), w)) as Hcheck.
  { unfold_M. simpl. fold self.
    rewrite (bool_decide_eq_false_2 (ndim a ≠ 2)) by (intros Hx; by apply Hx).
    by rewrite bool_decide_eq_false_2 by (intros Hx; by apply Hx). }
  rewrite predict_stages, Hcheck, make_inference_eq. fold self.
  rewrite Hin. cbv zeta. fold feed. by rewrite Hrun.
Qed.

(** X4.  A session that declares no input makes a call that passed the
    check raise [IndexError] without a run; a run that returns no tensor
    makes it raise [IndexError] after the run. *)
Theorem predict_index_errors data w vals source w' :
  let self := self_object w in
  check_inputs data w = (inr (vals, source), w') →
  (get_inputs (session self) = [] → predict data w = (inl IndexError, w))
  ∧ (∀ input0 ins,
       get_inputs (session self) = input0 :: ins →
       run (session self) None {[ name input0 := vals ]} = inr [] →
       predict data w
       = (inl IndexError,
          MkWorld self (engine_calls w ++ [{[ name input0 := vals ]}]))).
Proof.
  intros self Hcheck.
  destruct (check_inputs_inv _ _ _ _ _ Hcheck) as [-> _].
  rewrite predict_stages, Hcheck, make_inference_eq. fold self. split.
  - by intros ->.
  - intros input0 ins -> Hrun. cbv zeta. by rewrite Hrun.
Qed.

(** X5.  A call that returns, returns a value of the kind of its argument:
    an array for an ndarray, a DataFrame for a DataFrame, a dict for a
    dict. *)
Theorem predict_result_same_variant data w r :
  (predict data w).1 = inr r → same_variant data r = true.
Proof.
  rewrite predict_stages.
  destruct (check_inputs data w) as [[e|[vals source]] w1] eqn:Hcheck; [done|].
  destruct (check_inputs_inv _ _ _ _ _ Hcheck)
    as [-> [(a & -> & ->)|[(df & -> & ->)|(d & -> & ->)]]];
    destruct (make_inference vals w) as [[e|o] w2]; try done.
  - by intros [= <-].
  - rewrite adjust_outputs_frame. simpl.
    destruct (DataFrame_new _ _ _); [done|]. by intros [= <-].
  - rewrite adjust_outputs_dict. by intros [= <-].
Qed.



End Inference.


(** ** Further properties: tables *)

Section TableEdges.
Context {A B : Type} `{!NumpyDtype A, !NumpyDtype B}.
Implicit Types (w : World (B := B)) (df : DataFrame A).

Lemma length_rows_of_columns {X} n (cols : list (list X)) :
  Forall (λ c, length c = n) cols →
  length (rows_of_columns n cols) = n * length cols.
Proof.
  intros Hlen. unfold rows_of_columns.
  assert (∀ l : list nat, Forall (λ i, i < n) l →
            length (i ← l; omap (λ c : list X, c !! i) cols) = length l * length cols)
    as Haux.
  { induction 1 as [|i l Hi _ IH]; [done|].
    cbn [mbind list_bind]. rewrite length_app, IH, length_omap_total; [simpl; lia|].
    eapply Forall_impl; [exact Hlen|]. intros c Hc. simpl in Hc.
    apply lookup_lt_is_Some. lia. }
  rewrite Haux, length_seq; [done|].
  apply Forall_forall. intros i Hi. apply elem_of_seq in Hi. lia.
Qed.

Lemma elem_of_concat {X} (x : X) (ls : list (list X)) :
  x ∈ concat ls → ∃ l, x ∈ l ∧ l ∈ ls.
Proof.
  induction ls as [|l ls IH]; simpl.
  - intros Hx. by apply elem_of_nil in Hx.
  - intros [Hx|Hx]%elem_of_app.
    + exists l. split; [done|left].
    + destruct (IH Hx) as (l' & ? & ?). exists l'. split; [done|by right].
Qed.

(** X7.  The tensor built from a DataFrame that has a column for every
    input label has one row per row of the table and at least one column
    per input label - exactly one per label when the column names are
    distinct - and, every column of the table being as long as its index,
    it holds rows times columns numbers. *)
Theorem check_inputs_frame_shape df w :
  let labels := _input_labels (self_object w) in
  Forall (λ l, l ∈ columns df) labels →
  ∃ vals width,
    check_inputs (PyDataFrame df) w = (inr (vals, "dataframe"), w) ∧
    shape vals = [length (index df); width] ∧
    length labels ≤ width ∧
    (NoDup (columns df) → width = length labels) ∧
    (frame_wf df → length (elems vals) = length (index df) * width).
Proof.
  intros labels Hall. rewrite check_inputs_frame by done. fold labels.
  set (picked := (λ l, filter (λ c : string * list A, c.1 = l) (named_columns df))
                   <$> labels).
  exists (astype (values (MkDataFrame (index df) (concat picked)))),
         (length (concat picked)).
  split_and!; [done|done|..].
  - subst picked. clear -Hall. induction Hall as [|l ls Hl _ IH]; [done|].
    cbn [fmap list_fmap concat length]. rewrite length_app.
    apply list_elem_of_fmap in Hl as ([k c] & -> & Hc).
    assert ((k, c) ∈ filter (λ c' : string * list A, c'.1 = (k, c).1) (named_columns df))
      as Hin by by apply list_elem_of_filter.
    destruct (filter _ (named_columns df)); [by apply elem_of_nil in Hin|].
    simpl in *. lia.
  - intros Hnd. subst picked. clear -Hall Hnd.
    induction Hall as [|l ls Hl _ IH]; [done|].
    cbn [fmap list_fmap concat length]. rewrite length_app, IH.
    apply list_elem_of_fmap in Hl as ([k c] & -> & Hc). cbn [fst].
    by rewrite (filter_unique_name _ k c Hnd Hc).
  - intros Hwf. unfold astype, values. simpl.
    rewrite length_fmap, length_rows_of_columns, length_fmap; [done|].
    apply Forall_fmap, Forall_forall. intros [k c] Hc. simpl.
    unfold frame_wf in Hwf. rewrite Forall_forall in Hwf.
    apply (Hwf (k, c)). subst picked.
    apply elem_of_concat in Hc as (cs & Hc & Hcs).
    apply list_elem_of_fmap in Hcs as (l & -> & _).
    by apply list_elem_of_filter in Hc as [_ ?].
Qed.

(** X8.  For a DataFrame, a first output tensor whose shape is not
    (rows of the table, number of output labels) makes [predict] raise
    pandas' [ValueError] - after the engine has run. *)
Theorem predict_frame_output_mismatch df w vals source w' input0 ins o outs :
  let self := self_object w in
  let feed : gmap string (ndarray float32) := {[ name input0 := vals ]} in
  check_inputs (PyDataFrame df) w = (inr (vals, source), w') →
  get_inputs (session self) = input0 :: ins →
  run (session self) None feed = inr (o :: outs) →
  nrows o ≠ length (index df) ∨ ncols o ≠ length (_output_labels self) →
  predict (PyDataFrame df) w
  = (inl (ValueError (LibraryText pandas)),
     MkWorld self (engine_calls w ++ [feed])).
Proof.
  intros self feed Hcheck Hin Hrun Hbad.
  destruct (check_inputs_inv _ _ _ _ _ Hcheck)
    as [-> [(a & ? & _)|[(df' & _ & ->)|(d & ? & _)]]]; try done.
  rewrite predict_stages, Hcheck, make_inference_eq. fold self.
  rewrite Hin. cbv zeta. fold feed. rewrite Hrun, adjust_outputs_frame. simpl.
  unfold DataFrame_new. fold self.
  rewrite bool_decide_eq_false_2; [done|]. intros [? ?]. by destruct Hbad.
Qed.

(** X14.  For a DataFrame, a first output tensor of the shape the index and
    the output labels imply comes back as the table: the j-th column is the
    j-th column of the tensor under the j-th output label, in the engine's
    dtype (no cast to float32, unlike for a dict), on the index of the
    argument. *)
Theorem predict_frame_columns df w vals source w' input0 ins o outs :
  let self := self_object w in
  let feed : gmap string (ndarray float32) := {[ name input0 := vals ]} in
  check_inputs (PyDataFrame df) w = (inr (vals, source), w') →
  get_inputs (session self) = input0 :: ins →
  run (session self) None feed = inr (o :: outs) →
  nrows o = length (index df) →
  ncols o = length (_output_labels self) →
  ∃ r,
    predict (PyDataFrame df) w
    = (inr (RDataFrame r), MkWorld self (engine_calls w ++ [feed])) ∧
    index r = index df ∧
    length (named_columns r) = ncols o ∧
    ∀ j key, _output_labels self !! j = Some key →
             named_columns r !! j = Some (key, column o j).
Proof.
  intros self feed Hcheck Hin Hrun Hrows Hcols.
  destruct (check_inputs_inv _ _ _ _ _ Hcheck)
    as [-> [(a & ? & _)|[(df' & _ & ->)|(d & ? & _)]]]; try done.
  rewrite predict_stages, Hcheck, make_inference_eq. fold self.
  rewrite Hin. cbv zeta. fold feed. rewrite Hrun, adjust_outputs_frame. simpl.
  unfold DataFrame_new. fold self. rewrite bool_decide_eq_true_2 by done.
  eexists. split; [reflexivity|]. simpl. split_and!; [done| |].
  - rewrite length_zip, length_fmap, length_seq. lia.
  - intros j key Hkey. apply lookup_zip_with_Some. eexists _, _.
    split_and!; [done..|]. rewrite list_lookup_fmap, lookup_seq_lt; [done|].
    apply lookup_lt_Some in Hkey. lia.
Qed.
End TableEdges.

(** ** Further properties: dicts *)

Section MappingEdges.
Context {A B : Type} `{!NumpyDtype A, !NumpyDtype B}.
Implicit Types (w : World (B := B)) (d : gmap string (pyvalue A)).

(** X9.  A predictor without input labels accepts an ndarray of shape
    (N, 0) but rejects every dict, with numpy's [ValueError] for an empty
    [np.concatenate]; the engine is not run for the dict. *)
Theorem predict_no_input_labels w :
  _input_labels (self_object w) = [] →
  (∀ d, predict (PyDict d) w = (inl (ValueError (LibraryText numpy)), w))
  ∧ (∀ N, check_inputs (PyNdarray (Ndarray [N; 0] ([] : list A))) w
          = (inr (Ndarray [N; 0] [], "ndarray"), w)).
Proof.
  intros Hnone. split.
  - intros d. rewrite predict_stages, check_inputs_dict; rewrite Hnone; done.
  - intros N. unfold_M. simpl. by rewrite Hnone.
Qed.

(** X10.  [predict] reads a dict only through the flattened numbers under
    the input labels: other keys, the shape of an array, the index of a
    Series or the kind of container make no difference. *)
Theorem predict_dict_flat_values d1 d2 w :
  (∀ l, l ∈ _input_labels (self_object w) →
        (λ v, elems (asarray v)) <$> d1 !! l = (λ v, elems (asarray v)) <$> d2 !! l) →
  predict (PyDict d1) w = predict (PyDict d2) w.
Proof.
  intros Hsame.
  assert (∀ l, l ∈ _input_labels (self_object w) →
            flat_float32 <$> d1 !! l = flat_float32 <$> d2 !! l) as Hflat.
  { intros l Hl. specialize (Hsame l Hl).
    destruct (d1 !! l) as [v1|], (d2 !! l) as [v2|]; simplify_eq/=; [|done].
    by rewrite !flat_float32_eq, Hsame. }
  assert (check_inputs (PyDict d1) w = check_inputs (PyDict d2) w) as Hcheck.
  { destruct (decide (Forall (λ l, is_Some (d1 !! l)) (_input_labels (self_object w))))
      as [Hall|Hnot].
    - assert (Forall (λ l, is_Some (d2 !! l)) (_input_labels (self_object w))) as Hall'.
      { rewrite Forall_forall in Hall |- *. intros l Hl.
        specialize (Hall l Hl). specialize (Hflat l Hl).
        destruct Hall as [v Hv]. rewrite Hv in Hflat.
        destruct (d2 !! l); [by eexists|done]. }
      rewrite (check_inputs_dict _ w Hall), (check_inputs_dict _ w Hall').
      assert (omap (λ l, flat_float32 <$> d1 !! l) (_input_labels (self_object w))
              = omap (λ l, flat_float32 <$> d2 !! l) (_input_labels (self_object w)))
        as ->; [|done].
      apply list_omap_ext, Forall2_same_length_lookup.
      split; [done|]. intros i l l' Hl Hl'. simplify_eq.
      apply Hflat. by eapply list_elem_of_lookup_2.
    - assert (¬ Forall (λ l, is_Some (d2 !! l)) (_input_labels (self_object w))) as Hnot'.
      { intros Hall'. apply Hnot. rewrite Forall_forall in Hall' |- *. intros l Hl.
        specialize (Hall' l Hl). specialize (Hflat l Hl).
        destruct Hall' as [v Hv]. rewrite Hv in Hflat.
        destruct (d1 !! l); [by eexists|done]. }
      unfold_M. simpl.
      destruct (forallb (λ label, bool_decide (is_Some (d1 !! label))) _) eqn:Hb1;
        [by apply forallb_bool_decide in Hb1|].
      destruct (forallb (λ label, bool_decide (is_Some (d2 !! label))) _) eqn:Hb2;
        [by apply forallb_bool_decide in Hb2|].
      done. }
  rewrite !predict_stages, Hcheck.
  destruct (check_inputs (PyDict d2) w) as [[e|[vals source]] w1] eqn:Hc; [done|].
  apply check_inputs_dict_inv in Hc as [-> ->].
  destruct (make_inference vals w) as [[e|o] w2]; [done|].
  by rewrite !adjust_outputs_dict.
Qed.

(** In a dict built item by item, a key holds the value of its last item. *)
Lemma list_to_map_reverse_last {V} (items : list (string * V)) j key v :
  items !! j = Some (key, v) →
  (∀ j' v', j < j' → items !! j' ≠ Some (key, v')) →
  (list_to_map (reverse items) : gmap string V) !! key = Some v.
Proof.
  intros Hj Hlast.
  rewrite <-(take_drop_middle items j (key, v)) by done.
  rewrite reverse_app, reverse_cons, <-(assoc_L (++)), list_to_map_app.
  rewrite lookup_union_r.
  - simpl. apply lookup_insert_eq.
  - apply not_elem_of_list_to_map_1. rewrite fmap_reverse, elem_of_reverse.
    intros ([k v'] & ? & Hin)%list_elem_of_fmap. simplify_eq/=.
    apply list_elem_of_lookup in Hin as [i Hi]. rewrite lookup_drop in Hi.
    by apply (Hlast (S j + i) v'); [lia|].
Qed.

(** X11.  With an output label that occurs more than once, the dict holds
    under it the output column of its last occurrence among the labels that
    got a column. *)
Theorem predict_dict_last_label_wins d w vals source w' input0 ins o outs :
  let self := self_object w in
  let labels := _output_labels self in
  check_inputs (PyDict d) w = (inr (vals, source), w') →
  get_inputs (session self) = input0 :: ins →
  run (session self) None {[ name input0 := vals ]} = inr (o :: outs) →
  ∃ r,
    (predict (PyDict d) w).1 = inr (RDict r) ∧
    ∀ j key,
      j < ncols o → labels !! j = Some key →
      (∀ j', j < j' → j' < ncols o → labels !! j' ≠ Some key) →
      r !! key = Some (Ndarray [length (column o j)] (astype_float32 <$> column o j)).
Proof.
  intros self labels Hcheck Hin Hrun.
  apply check_inputs_dict_inv in Hcheck as Hinv. destruct Hinv as [-> ->].
  rewrite predict_stages, Hcheck, make_inference_eq. fold self.
  rewrite Hin. cbv zeta. rewrite Hrun, adjust_outputs_dict. simpl. fold self labels.
  eexists. split; [reflexivity|]. intros j key Hj Hkey Hlast.
  eapply list_to_map_reverse_last.
  - apply lookup_output_items. eauto.
  - intros j' v' Hlt Hj'. apply lookup_output_items in Hj' as (? & ? & _).
    by eapply Hlast.
Qed.
End MappingEdges.

(** ** Further properties: the script *)

Section Script.
Context {B : Type} `{!NumpyDtype B}.
Implicit Types (w : World (B := B)).

(** With distinct labels and one draw per label, the dict of the script
    holds each draw under its label. *)
Lemma main_inputs_lookup (labels : list string) (draws : list Z) :
  NoDup labels → length draws = length labels →
  Forall2 (λ l r, main_inputs labels draws !! l = Some (VScalar (I64 r))) labels draws.
Proof.
  intros Hnd Hlen. unfold main_inputs.
  rewrite (comprehension_list_to_map (λ r, VScalar (I64 r))), (right_id_L ∅ (∪)).
  apply Forall2_same_length_lookup. split; [done|]. intros i l r Hl Hr.
  apply elem_of_list_to_map_1.
  - rewrite fmap_reverse, reverse_Permutation, <-list_fmap_compose.
    rewrite (list_fmap_ext _ fst (zip labels draws)) by done.
    rewrite fst_zip by lia. done.
  - rewrite elem_of_reverse. apply list_elem_of_fmap.
    exists (l, r). split; [done|].
    apply list_elem_of_lookup. exists i. apply lookup_zip_with_Some. eauto.
Qed.

Lemma check_inputs_scalars (d : gmap string (pyvalue int64)) w (draws : list Z) :
  _input_labels (self_object w) ≠ [] →
  Forall2 (λ l r, d !! l = Some (VScalar (I64 r))) (_input_labels (self_object w)) draws →
  check_inputs (PyDict d) w
  = (inr (Ndarray [1; length (_input_labels (self_object w))]
                  ((λ r, astype_float32 (I64 r)) <$> draws), "dict"), w).
Proof.
  intros Hne Hd.
  rewrite check_inputs_dict.
  2:{ eapply Forall2_Forall_l; [exact Hd|]. apply Forall_true. intros r l ->. by eexists. }
  assert (reshape_column <$> omap (λ l, flat_float32 <$> d !! l)
                                  (_input_labels (self_object w))
          = (λ c, reshape_column (Ndarray [length c] c))
              <$> ((λ r, [astype_float32 (I64 r)]) <$> draws)) as ->.
  { clear Hne. induction Hd as [|l r labels' draws' Hv _ IH]; [done|].
    cbn [fmap list_fmap omap list_omap]. rewrite Hv. simpl. f_equal. exact IH. }
  rewrite (np_concatenate_columns 1).
  - rewrite length_fmap, <-(Forall2_length _ _ _ Hd).
    assert (rows_of_columns 1 ((λ r, [astype_float32 (I64 r)]) <$> draws)
            = (λ r, astype_float32 (I64 r)) <$> draws) as ->; [|done].
    unfold rows_of_columns. cbn [seq mbind list_bind]. rewrite (right_id_L [] (++)).
    clear. induction draws as [|r draws IH]; [done|].
    cbn [fmap list_fmap omap list_omap]. simpl (_ !! 0). by rewrite IH.
  - apply Forall2_length in Hd. destruct draws; [|done].
    by destruct (_input_labels (self_object w)).
  - apply Forall_fmap, Forall_true. done.
Qed.

(** X12.  The dict the script builds - one drawn integer per label,
    labels distinct - passes the check as a single row: the draws as
    float32, in the order of the input labels. *)
Theorem main_inputs_single_row w (draws : list Z) :
  let labels := _input_labels (self_object w) in
  labels ≠ [] → NoDup labels → length draws = length labels →
  check_inputs (PyDict (main_inputs labels draws)) w
  = (inr (Ndarray [1; length labels] ((λ r, astype_float32 (I64 r)) <$> draws),
          "dict"), w).
Proof.
  intros labels Hne Hnd Hlen.
  apply check_inputs_scalars; [done|]. by apply main_inputs_lookup.
Qed.

(** X13.  When both loaders succeed and the session declares an input, the
    script runs the engine exactly once, on one row of sixteen numbers: its
    draws as float32 in the order of its input labels; the predictor it
    leaves holds the script's path and label lists. *)
Theorem main_runs_once new_session onnx_load (draws : list Z)
    (sess : InferenceSession (B := B)) graph input0 ins :
  new_session main_model_path = inr sess →
  onnx_load main_model_path = inr graph →
  get_inputs sess = input0 :: ins →
  length draws = 16 →
  ∃ outcome world,
    main new_session onnx_load draws = inr (outcome, world) ∧
    self_object world
    = MkOnnxModel main_model_path main_input_labels main_output_labels sess graph ∧
    engine_calls world
    = [ {[ name input0 :=
             Ndarray [1; 16] ((λ r, astype_float32 (I64 r)) <$> draws) ]} ].
Proof.
  intros Hsess Hload Hin Hlen.
  unfold main, init. rewrite Hsess. simpl. rewrite Hload. simpl.
  unfold call, input_labels. simpl.
  set (w := MkWorld (MkOnnxModel main_model_path main_input_labels
                                 main_output_labels sess graph) []).
  destruct (predict (PyDict (main_inputs main_input_labels draws)) w)
    as [outcome world] eqn:Hpredict.
  exists outcome, world. split; [done|].
  assert (world = (predict (PyDict (main_inputs main_input_labels draws)) w).2) as ->
    by by rewrite Hpredict.
  clear Hpredict. rewrite predict_stages.
  assert (NoDup main_input_labels) as Hnd
    by (apply (bool_decide_unpack _); vm_compute; exact I).
  rewrite (check_inputs_scalars _ w draws), make_inference_eq;
    [|done|by apply main_inputs_lookup].
  simpl. rewrite Hin. cbv zeta.
  destruct (run sess None _) as [e|[|o outs]]; [done..|].
  by rewrite adjust_outputs_dict.
Qed.
End Script.

(** ** The further properties at concrete arguments *)

Lemma predict_engine_error_witness :
  predict (PyNdarray Demo.array) Edge.w_failing
  = (inl (EngineInvocationError "RUNTIME_EXCEPTION"),
     MkWorld (self_object Edge.w_failing) [ {[ "input" := Demo.vals_ab ]} ]).
Proof.
  apply (predict_engine_error (PyNdarray Demo.array) Edge.w_failing
           Demo.vals_ab "ndarray" Edge.w_failing (MkNodeArg "input") []);
    reflexivity.
Defined.

Lemma predict_ndarray_returns_first_output_witness :
  predict (PyNdarray Demo.array) Demo.w0
  = (inr (RNdarray (Demo.row_sums Demo.vals_ab)),
     MkWorld Demo.adder [ {[ "input" := Demo.vals_ab ]} ]).
Proof.
  etrans;
    [apply (predict_ndarray_returns_first_output Demo.array Demo.w0
              (MkNodeArg "input") [] (Demo.row_sums Demo.vals_ab) []);
       [reflexivity | reflexivity | reflexivity | vm_compute; reflexivity]
    | vm_compute; reflexivity].
Defined.

Lemma predict_index_errors_witness :
  predict (PyNdarray Demo.array) Edge.w_no_input = (inl IndexError, Edge.w_no_input)
  ∧ predict (PyNdarray Demo.array) Edge.w_silent
    = (inl IndexError,
       MkWorld (self_object Edge.w_silent) [ {[ "input" := Demo.vals_ab ]} ]).
Proof.
  split.
  - apply (predict_index_errors (PyNdarray Demo.array) Edge.w_no_input
             Demo.vals_ab "ndarray" Edge.w_no_input); reflexivity.
  - apply (proj2 (predict_index_errors (PyNdarray Demo.array) Edge.w_silent
                    Demo.vals_ab "ndarray" Edge.w_silent eq_refl)
             (MkNodeArg "input") []); reflexivity.
Defined.

Lemma predict_result_same_variant_witness :
  same_variant (PyDataFrame Demo.table)
    (RDataFrame (MkDataFrame [HInt 10; HInt 11] [("x", [Demo.f32 4; Demo.f32 6])]))
  = true.
Proof.
  apply (predict_result_same_variant (PyDataFrame Demo.table) Demo.w0).
  vm_compute. reflexivity.
Defined.


Lemma check_inputs_frame_shape_witness :
  ∃ vals width,
    check_inputs (PyDataFrame Demo.table_reordered) Demo.w0
      = (inr (vals, "dataframe"), Demo.w0)
    ∧ shape vals = [2; width] ∧ width = 2 ∧ length (elems vals) = 4.
Proof.
  destruct (check_inputs_frame_shape Demo.table_reordered Demo.w0)
    as (vals & width & Hcheck & Hshape & _ & Hwidth & Hlen).
  - repeat constructor.
  - exists vals, width.
    assert (width = 2) as Hw.
    { apply Hwidth. apply (bool_decide_unpack _). vm_compute. exact I. }
    split_and!; [exact Hcheck | exact Hshape | exact Hw |].
    rewrite Hlen, Hw; [reflexivity|]. repeat constructor.
Defined.

Lemma predict_frame_output_mismatch_witness :
  predict (PyDataFrame Demo.table) Demo.w_echo
  = (inl (ValueError (LibraryText pandas)),
     MkWorld Demo.echo_model [ {[ "input" := Demo.vals_ab ]} ]).
Proof.
  apply (predict_frame_output_mismatch Demo.table Demo.w_echo Demo.vals_ab
           "dataframe" Demo.w_echo (MkNodeArg "input") [] (Demo.echo Demo.vals_ab) []).
  - vm_compute. reflexivity.
  - reflexivity.
  - vm_compute. reflexivity.
  - right. simpl. discriminate.
Defined.

Lemma predict_frame_columns_witness :
  ∃ r, predict (PyDataFrame Demo.table) Demo.w0
       = (inr (RDataFrame r), MkWorld Demo.adder [ {[ "input" := Demo.vals_ab ]} ])
       ∧ index r = [HInt 10; HInt 11]
       ∧ named_columns r !! 0 = Some ("x", [Demo.f32 4; Demo.f32 6]).
Proof.
  destruct (predict_frame_columns Demo.table Demo.w0 Demo.vals_ab "dataframe" Demo.w0
              (MkNodeArg "input") [] (Demo.row_sums Demo.vals_ab) [])
    as (r & Hr & Hidx & _ & Hcol);
    [vm_compute; reflexivity | reflexivity | vm_compute; reflexivity
    | reflexivity | reflexivity |].
  exists r. split_and!; [exact Hr | exact Hidx |].
  rewrite (Hcol 0 "x" eq_refl). vm_compute. reflexivity.
Defined.

Lemma predict_no_input_labels_witness :
  predict (PyDict Demo.mapping) Edge.w_no_labels
    = (inl (ValueError (LibraryText numpy)), Edge.w_no_labels)
  ∧ check_inputs (PyNdarray (Ndarray [3; 0] ([] : list float64))) Edge.w_no_labels
    = (inr (Ndarray [3; 0] [], "ndarray"), Edge.w_no_labels).
Proof.
  destruct (predict_no_input_labels (A := float64) Edge.w_no_labels eq_refl)
    as [Hdict Harray].
  split; [apply Hdict | apply Harray].
Defined.

Lemma predict_dict_flat_values_witness :
  predict (PyDict Demo.mapping) Demo.w0
  = predict (PyDict Edge.mapping_other_shapes) Demo.w0.
Proof.
  apply (predict_dict_flat_values Demo.mapping Edge.mapping_other_shapes Demo.w0).
  intros l Hl.
  repeat (apply elem_of_cons in Hl as [->|Hl]; [vm_compute; reflexivity|]).
  by apply elem_of_nil in Hl.
Defined.

Lemma predict_dict_last_label_wins_witness :
  ∃ r, (predict (PyDict Demo.mapping) Edge.w_same_name).1 = inr (RDict r)
       ∧ r !! "x" = Some (Ndarray [2] [Demo.f32 3; Demo.f32 4]).
Proof.
  destruct (predict_dict_last_label_wins Demo.mapping Edge.w_same_name Demo.vals_ab
              "dict" Edge.w_same_name (MkNodeArg "input") [] (Demo.echo Demo.vals_ab) [])
    as (r & Hr & Hlast);
    [vm_compute; reflexivity | reflexivity | vm_compute; reflexivity |].
  exists r. split; [exact Hr|].
  rewrite (Hlast 1 "x"); [vm_compute; reflexivity | simpl; lia | reflexivity |].
  intros j' Hlt Hj'. simpl in Hj'. lia.
Defined.

Lemma main_inputs_single_row_witness :
  check_inputs (PyDict (main_inputs main_input_labels Edge.draws)) Edge.w_script
  = (inr (Ndarray [1; 16] ((λ r, astype_float32 (I64 r)) <$> Edge.draws), "dict"),
     Edge.w_script).
Proof.
  apply (main_inputs_single_row Edge.w_script Edge.draws).
  - discriminate.
  - apply (bool_decide_unpack _). vm_compute. exact I.
  - reflexivity.
Defined.

Lemma main_runs_once_witness :
  ∃ outcome world,
    main (λ _, inr Edge.zeros_session) (λ _, inr "") Edge.draws = inr (outcome, world)
    ∧ self_object world = self_object Edge.w_script
    ∧ engine_calls world
      = [ {[ "input" := Ndarray [1; 16] ((λ r, astype_float32 (I64 r)) <$> Edge.draws) ]} ].
Proof.
  apply (main_runs_once (λ _, inr Edge.zeros_session) (λ _, inr "") Edge.draws
           Edge.zeros_session "" (MkNodeArg "input") []); reflexivity.
Defined.

(** ** The cast to float32 *)

Section CastBeforeRun.
Context {A B : Type} `{!NumpyDtype A, !NumpyDtype B}.
Implicit Types (w : World (B := B)) (data : pyobj A).










End CastBeforeRun.


(** ** One content, three arguments *)

Section ThreeVariants.
Context {A B : Type} `{!NumpyDtype A, !NumpyDtype B}.
Implicit Types (w : World (B := B)).

End ThreeVariants.


